(** * Transaction intake pipeline: a shallow embedding of [backend-python/app.py]

    The development models the request handlers of the backend
    ([create_transaction], [list_transactions], [clear_transactions]) and
    the storage helper [save_transaction_record] as functions over an
    explicit process state, and proves the properties the specification
    states about them.

    Conventions of the model:
    - a Python [int] is a [Z]; a Python [float] is [pyfloat], the exact
      rational value of a finite double or one of the three special values
      (only order and equality of floats are used by the handlers, and both
      are exact in Python, also between a float and an int);
    - a Python [str] is a [string] that holds its UTF-8 encoding;
    - a JSON-like Python object is a [value]; a [dict] keeps its entries in
      insertion order, as Python does;
    - [os.environ] is a finite map from names to strings;
    - an exception that leaves a handler is an [outcome]: an [HTTPException]
      with its status code and detail, or any other exception ([Uncaught]);
    - what the outside world answers during one call (the risk service, the
      DynamoDB table, the clock, the id generator) is an argument of the
      call; library functions of which only the result matters ([json.loads],
      [json.dumps], the Google token verifier) are variables of the section
      that holds the handlers. *)

From Stdlib Require Import ZArith QArith String Ascii List Bool Lia.
From Stdlib Require Import Sorting.Sorted Sorting.Permutation.
From stdpp Require Import base list strings gmap.

Set Warnings "-register-all".

Local Open Scope string_scope.
Local Open Scope Z_scope.

(** ** Python values *)

Inductive pyfloat : Type :=
| FNaN
| FInf (negative : bool)
| FFin (q : Q).

Inductive value : Type :=
| VNone
| VBool (b : bool)
| VInt (z : Z)
| VFloat (f : pyfloat)
| VStr (s : string)
| VList (l : list value)
| VDict (d : list (string * value)).

(** A [dict] with string keys, entries in insertion order. *)
Definition dict : Type := list (string * value).

Fixpoint dict_get (k : string) (d : dict) : option value :=
  match d with
  | [] => None
  | (k', v) :: d' => if String.eqb k k' then Some v else dict_get k d'
  end.

(** [d.get(k)]: [None] when the key is absent. *)
Definition py_get (k : string) (d : dict) : value :=
  match dict_get k d with
  | Some v => v
  | None => VNone
  end.

(** [d.get(k, dflt)]. *)
Definition py_get_default (k : string) (dflt : value) (d : dict) : value :=
  match dict_get k d with
  | Some v => v
  | None => dflt
  end.

Module Py.

(** Truth value of an object, as [if x:] and [not x] test it. *)
Definition truthy (v : value) : bool :=
  match v with
  | VNone => false
  | VBool b => b
  | VInt z => negb (z =? 0)
  | VFloat FNaN => true
  | VFloat (FInf _) => true
  | VFloat (FFin q) => negb (Qeq_bool q 0)
  | VStr s => negb (String.eqb s "")
  | VList l => match l with [] => false | _ => true end
  | VDict d => match d with [] => false | _ => true end
  end.

Definition str_truthy (s : string) : bool := negb (String.eqb s "").

(** Truth value of an [Optional[str]]. *)
Definition opt_truthy (o : option string) : bool :=
  match o with
  | Some s => str_truthy s
  | None => false
  end.

Definition float_eq (f g : pyfloat) : bool :=
  match f, g with
  | FFin p, FFin q => Qeq_bool p q
  | FInf a, FInf b => Bool.eqb a b
  | _, _ => false
  end.

Definition int_eq_float (z : Z) (f : pyfloat) : bool :=
  match f with
  | FFin q => Qeq_bool (inject_Z z) q
  | _ => false
  end.

(** [f >= n] and [f > n] for a float [f] and an int [n]: exact, and false
    whenever [f] is NaN. *)
Definition float_ge_int (f : pyfloat) (n : Z) : bool :=
  match f with
  | FNaN => false
  | FInf negative => negb negative
  | FFin q => Qle_bool (inject_Z n) q
  end.

Definition float_gt_int (f : pyfloat) (n : Z) : bool :=
  match f with
  | FNaN => false
  | FInf negative => negb negative
  | FFin q => negb (Qle_bool q (inject_Z n))
  end.

Definition Z_of_bool (b : bool) : Z := if b then 1 else 0.

(** [a == b] on values: numbers compare across bool, int and float, strings
    by content, lists element by element, dicts entry by entry whatever the
    order. *)
Fixpoint eq (a b : value) {struct a} : bool :=
  match a, b with
  | VNone, VNone => true
  | VBool x, VBool y => Bool.eqb x y
  | VBool x, VInt y => Z_of_bool x =? y
  | VBool x, VFloat g => int_eq_float (Z_of_bool x) g
  | VInt x, VBool y => x =? Z_of_bool y
  | VInt x, VInt y => x =? y
  | VInt x, VFloat g => int_eq_float x g
  | VFloat f, VBool y => int_eq_float (Z_of_bool y) f
  | VFloat f, VInt y => int_eq_float y f
  | VFloat f, VFloat g => float_eq f g
  | VStr s, VStr t => String.eqb s t
  | VList l, VList m =>
      (fix all2 (l m : list value) {struct l} : bool :=
         match l, m with
         | [], [] => true
         | x :: l', y :: m' => eq x y && all2 l' m'
         | _, _ => false
         end) l m
  | VDict d, VDict e =>
      (length d =? length e)%nat &&
      (fix sub (d : list (string * value)) {struct d} : bool :=
         match d with
         | [] => true
         | (k, v) :: d' =>
             match dict_get k e with
             | Some w => eq v w && sub d'
             | None => false
             end
         end) d
  | _, _ => false
  end.

(** [x in xs] for a tuple of strings. *)
Definition in_strs (x : value) (xs : list string) : bool :=
  existsb (fun s => eq x (VStr s)) xs.

(** [l[:n]]: the first [n] entries, or all but the last [-n] when [n] is
    negative. *)
Definition slice_to {A : Type} (n : Z) (l : list A) : list A :=
  if 0 <=? n then take (Z.to_nat n) l
  else take (length l - Z.to_nat (- n))%nat l.

(** *** Strings *)

Definition lower_ascii (c : ascii) : ascii :=
  let n := nat_of_ascii c in
  if ((65 <=? n) && (n <=? 90))%nat then ascii_of_nat (n + 32) else c.

(** [s.lower()] on ASCII text. *)
Fixpoint lower (s : string) : string :=
  match s with
  | EmptyString => EmptyString
  | String c s' => String (lower_ascii c) (lower s')
  end.

(** [s.startswith(p)]. *)
Fixpoint startswith (s p : string) {struct p} : bool :=
  match p with
  | EmptyString => true
  | String c p' =>
      match s with
      | EmptyString => false
      | String d s' => Ascii.eqb c d && startswith s' p'
      end
  end.

(** [s.split(sep, 1)] for a one-character separator: the text before the
    first separator and, when there is one, the text after it. *)
Fixpoint split1 (sep : ascii) (s : string) : string * option string :=
  match s with
  | EmptyString => (EmptyString, None)
  | String c s' =>
      if Ascii.eqb c sep then (EmptyString, Some s')
      else let '(hd, tl) := split1 sep s' in (String c hd, tl)
  end.

(** *** [int()] on a string

    [int(s)] first reads the code points of [s]: those below 127 are kept,
    a Unicode white space becomes a blank, a Unicode decimal digit becomes
    the ASCII digit of the same value, and anything else is an error.  The
    resulting ASCII text is then parsed: white space around, an optional
    sign, decimal digits with single underscores between them, at most 4300
    digits. *)

Definition byte (c : ascii) : Z := Z.of_nat (nat_of_ascii c).

(** A continuation byte of UTF-8. *)
Definition is_cont (b : Z) : bool := (128 <=? b) && (b <=? 191).

(** The code points of a UTF-8 text; [None] when the bytes are not the
    encoding of a sequence of code points (shortest form, no surrogate,
    at most U+10FFFF). *)
Fixpoint utf8_decode (l : list ascii) : option (list Z) :=
  match l with
  | [] => Some []
  | c0 :: l1 =>
      let b0 := byte c0 in
      if b0 <? 128 then cons b0 <$> utf8_decode l1
      else if (194 <=? b0) && (b0 <=? 223) then
        match l1 with
        | c1 :: l2 =>
            if is_cont (byte c1)
            then cons ((b0 - 192) * 64 + (byte c1 - 128)) <$> utf8_decode l2
            else None
        | _ => None
        end
      else if (224 <=? b0) && (b0 <=? 239) then
        match l1 with
        | c1 :: c2 :: l3 =>
            let cp := (b0 - 224) * 4096 + (byte c1 - 128) * 64
                      + (byte c2 - 128) in
            if is_cont (byte c1) && is_cont (byte c2) && (2048 <=? cp)
               && negb ((55296 <=? cp) && (cp <=? 57343))
            then cons cp <$> utf8_decode l3
            else None
        | _ => None
        end
      else if (240 <=? b0) && (b0 <=? 244) then
        match l1 with
        | c1 :: c2 :: c3 :: l4 =>
            let cp := (b0 - 240) * 262144 + (byte c1 - 128) * 4096
                      + (byte c2 - 128) * 64 + (byte c3 - 128) in
            if is_cont (byte c1) && is_cont (byte c2) && is_cont (byte c3)
               && (65536 <=? cp) && (cp <=? 1114111)
            then cons cp <$> utf8_decode l4
            else None
        | _ => None
        end
      else None
  end.

(** The code points of the digit zero of each run of ten decimal digits
    (Unicode 14.0, the database of CPython 3.11). *)
Definition DECIMAL_ZEROS : list Z :=
  [ 48; 1632; 1776; 1984; 2406; 2534; 2662; 2790; 2918; 3046; 3174; 3302;
    3430; 3558; 3664; 3792; 3872; 4160; 4240; 6112; 6160; 6470; 6608; 6784;
    6800; 6992; 7088; 7232; 7248; 42528; 43216; 43264; 43472; 43504; 43600;
    44016; 65296; 66720; 68912; 69734; 69872; 69942; 70096; 70384; 70736;
    70864; 71248; 71360; 71472; 71904; 72016; 72784; 73040; 73120; 92768;
    92864; 93008; 120782; 120792; 120802; 120812; 120822; 123200; 123632;
    125264; 130032 ].

(** The value of a decimal digit. *)
Definition to_decimal (cp : Z) : option Z :=
  match List.find (fun zero => (zero <=? cp) && (cp <? zero + 10))
                  DECIMAL_ZEROS with
  | Some zero => Some (cp - zero)
  | None => None
  end.

(** The white space among the code points from 127 on. *)
Definition unicode_space (cp : Z) : bool :=
  (cp =? 133) || (cp =? 160) || (cp =? 5760)
  || ((8192 <=? cp) && (cp <=? 8202))
  || (cp =? 8232) || (cp =? 8233) || (cp =? 8239) || (cp =? 8287)
  || (cp =? 12288).

(** The ASCII text that is parsed; [None] at a code point that is neither
    below 127, nor a white space, nor a decimal digit. *)
Fixpoint to_ascii (cps : list Z) : option (list ascii) :=
  match cps with
  | [] => Some []
  | cp :: cps' =>
      if cp <? 127 then cons (ascii_of_nat (Z.to_nat cp)) <$> to_ascii cps'
      else if unicode_space cp then cons " "%char <$> to_ascii cps'
      else
        match to_decimal cp with
        | Some d => cons (ascii_of_nat (Z.to_nat (48 + d))) <$> to_ascii cps'
        | None => None
        end
  end.

(** The white space skipped around the numeral. *)
Definition is_space (c : ascii) : bool :=
  let n := nat_of_ascii c in
  (((9 <=? n) && (n <=? 13)) || (n =? 32))%nat.

Definition is_digit (c : ascii) : bool :=
  let n := nat_of_ascii c in ((48 <=? n) && (n <=? 57))%nat.

Definition digit_val (c : ascii) : Z := Z.of_nat (nat_of_ascii c) - 48.

Fixpoint lstrip (l : list ascii) : list ascii :=
  match l with
  | c :: l' => if is_space c then lstrip l' else l
  | [] => []
  end.

Definition strip (l : list ascii) : list ascii :=
  rev (lstrip (rev (lstrip l))).

(** Decimal digits, single underscores allowed between two digits. *)
Fixpoint digits (acc : Z) (after_digit : bool) (l : list ascii) : option Z :=
  match l with
  | [] => if after_digit then Some acc else None
  | c :: l' =>
      if is_digit c then digits (10 * acc + digit_val c) true l'
      else if Ascii.eqb c "_"%char && after_digit then digits acc false l'
      else None
  end.

(** The default of [sys.get_int_max_str_digits()]. *)
Definition MAX_STR_DIGITS : Z := 4300.

Definition digit_count (l : list ascii) : Z :=
  Z.of_nat (length (List.filter is_digit l)).

(** The numeral after the sign: [None] when it is malformed or has more
    digits than the interpreter converts. *)
Definition unsigned (l : list ascii) : option Z :=
  if MAX_STR_DIGITS <? digit_count l then None else digits 0 false l.

(** [int(s)] for a string; [None] stands for [ValueError]. *)
Definition int_of_str (s : string) : option Z :=
  match utf8_decode (list_ascii_of_string s) with
  | Some cps =>
      match to_ascii cps with
      | Some text =>
          match strip text with
          | c :: l =>
              if Ascii.eqb c "-"%char then Z.opp <$> unsigned l
              else if Ascii.eqb c "+"%char then unsigned l
              else unsigned (c :: l)
          | [] => None
          end
      | None => None
      end
  | None => None
  end.

(** [int(x)] for a value; [None] stands for the exception raised. *)
Definition int_of_value (v : value) : option Z :=
  match v with
  | VBool b => Some (Z_of_bool b)
  | VInt z => Some z
  | VFloat (FFin q) => Some (Z.quot (Qnum q) (Z.pos (Qden q)))
  | VStr s => int_of_str s
  | _ => None
  end.

End Py.

(** ** Process state, configuration and exceptions *)

(** The module-level list [transactions_store], and the items this process
    has written to the DynamoDB table with [put_item] (newest first). *)
Record state : Type := State {
  transactions_store : list dict;
  dynamo_items : list dict
}.

Definition initial_state : state :=
  {| transactions_store := []; dynamo_items := [] |}.

(** What is fixed when the process starts: the environment variables, and
    whether [import boto3] succeeded ([boto3] is [None] otherwise). *)
Record config : Type := Config {
  environ : gmap string string;
  boto3 : bool
}.

Definition getenv (cfg : config) (name : string) : option string :=
  environ cfg !! name.

Definition getenv_default (cfg : config) (name dflt : string) : string :=
  match environ cfg !! name with
  | Some s => s
  | None => dflt
  end.

(** How a handler ends. *)
Inductive outcome (A : Type) : Type :=
| Return (a : A)
| HTTPException (status_code : Z) (detail : string)
| Uncaught.

Arguments Return {A} a.
Arguments HTTPException {A} status_code detail.
Arguments Uncaught {A}.

(** A handler runs on the process state; the state it leaves behind is kept
    also when it raises. *)
Definition handler (A : Type) : Type := state -> outcome A * state.

#[global] Instance handler_ret : MRet handler :=
  fun A (a : A) st => (Return a, st).

#[global] Instance handler_bind : MBind handler :=
  fun A B (k : A -> handler B) (m : handler A) st =>
    match m st with
    | (Return a, st') => k a st'
    | (HTTPException c d, st') => (HTTPException c d, st')
    | (Uncaught, st') => (Uncaught, st')
    end.

Definition raise {A : Type} (status_code : Z) (detail : string) : handler A :=
  fun st => (HTTPException status_code detail, st).

Definition crash {A : Type} : handler A := fun st => (Uncaught, st).

(** Answer of a DynamoDB call: its result, an exception of the family the
    code catches ([BotoCoreError], [ClientError]), or any other exception. *)
Inductive dynamo_reply (A : Type) : Type :=
| DynamoOk (a : A)
| DynamoBotoError
| DynamoOtherError.

Arguments DynamoOk {A} a.
Arguments DynamoBotoError {A}.
Arguments DynamoOtherError {A}.

(** Answer of the risk service to the POST of [create_transaction]. *)
Inductive risk_response : Type :=
| RiskUnreachable              (* the POST raised: transport error, timeout *)
| RiskNotJson                  (* [risk_response.json()] raised *)
| RiskJson (body : value).

(** The request body of [POST /transactions]. *)
Record Transaction : Type := {
  amount : pyfloat;
  currency : string;
  merchant : string;
  high_risk : bool;
  risk_level : value
}.

(** What the outside world answers during one [create_transaction]. *)
Record create_world : Type := {
  risk_reply : risk_response;
  uuid4 : string;
  time_now : Z;
  put_reply : dynamo_reply unit
}.

(** ** Storage *)

Definition STORE_CAPACITY : nat := 200.

(** [if boto3 and table_name]. *)
Definition durable_enabled (cfg : config) : bool :=
  boto3 cfg && Py.opt_truthy (getenv cfg "DDB_TABLE").

(** The fallback of [save_transaction_record]: [insert(0, record)], then one
    [pop()] when the list is longer than 200. *)
Definition store_insert (record : dict) (store : list dict) : list dict :=
  let store1 := record :: store in
  if (STORE_CAPACITY <? length store1)%nat then removelast store1 else store1.

Definition save_transaction_record
    (cfg : config) (put : dynamo_reply unit) (record : dict) : handler bool :=
  fun st =>
    let fallback :=
      (Return false,
       {| transactions_store := store_insert record (transactions_store st);
          dynamo_items := dynamo_items st |}) in
    if durable_enabled cfg then
      match put with
      | DynamoOk _ =>
          (Return true,
           {| transactions_store := transactions_store st;
              dynamo_items := record :: dynamo_items st |})
      | DynamoBotoError => fallback
      | DynamoOtherError => (Uncaught, st)
      end
    else fallback.

(** ** Risk classification *)

Definition HIGH_RISK_AMOUNT (cfg : config) : Z :=
  match Py.int_of_str (getenv_default cfg "HIGH_RISK_AMOUNT" "10000") with
  | Some n => n
  | None => 10000
  end.

Definition risk_data (r : risk_response) : value :=
  match r with
  | RiskJson body => body
  | RiskNotJson => VDict []
  | RiskUnreachable => VDict []
  end.

(** [risk_data.get("risk_level") if isinstance(risk_data, dict) else None]. *)
Definition reported_level (data : value) : value :=
  match data with
  | VDict d => py_get "risk_level" d
  | _ => VNone
  end.

Definition TIERS : list string := ["HIGH"; "MEDIUM"; "LOW"].

Definition is_high (cfg : config) (amt : pyfloat) (level : value) : bool :=
  if Py.eq level (VStr "HIGH") then true
  else if Py.eq level (VStr "MEDIUM") then false
  else if Py.eq level (VStr "LOW") then false
  else if Py.float_ge_int amt (HIGH_RISK_AMOUNT cfg) then true
  else false.

Definition amount_tier (amt : pyfloat) : string :=
  if Py.float_gt_int amt 10000 then "HIGH"
  else if Py.float_gt_int amt 1000 then "MEDIUM"
  else "LOW".

Definition display_level (amt : pyfloat) (level : value) : value :=
  if Py.in_strs level TIERS then level else VStr (amount_tier amt).

(** The transaction with its two risk fields assigned. *)
Definition classify (cfg : config) (r : risk_response) (t : Transaction)
    : Transaction :=
  let level := reported_level (risk_data r) in
  {| amount := amount t; currency := currency t; merchant := merchant t;
     high_risk := is_high cfg (amount t) level;
     risk_level := display_level (amount t) level |}.

Definition build_record (w : create_world) (user_header : string)
    (t : Transaction) : dict :=
  [ ("id", VStr (uuid4 w));
    ("timestamp", VInt (time_now w));
    ("user", VStr user_header);
    ("amount", VFloat (amount t));
    ("currency", VStr (currency t));
    ("merchant", VStr (merchant t));
    ("risk_level", risk_level t);
    ("high_risk", VBool (high_risk t)) ].

(** ** Listing helpers that do not depend on a library function *)

(** The sort key of [list_transactions]: [int(x.get("timestamp", 0))]. *)
Definition timestamp_key (x : dict) : option Z :=
  Py.int_of_value (py_get_default "timestamp" (VInt 0) x).

(** The keys of all items, in order; [None] as soon as one [int(...)]
    raises. *)
Fixpoint with_keys (items : list dict) : option (list (Z * dict)) :=
  match items with
  | [] => Some []
  | x :: items' =>
      match timestamp_key x with
      | Some k =>
          match with_keys items' with
          | Some rest => Some ((k, x) :: rest)
          | None => None
          end
      | None => None
      end
  end.

(** [sorted(..., reverse=True)]: larger keys first, items with equal keys in
    their original order. *)
Fixpoint insert_desc (k : Z) (x : dict) (l : list (Z * dict)) : list (Z * dict) :=
  match l with
  | [] => [(k, x)]
  | (k', y) :: l' =>
      if k <? k' then (k', y) :: insert_desc k x l'
      else (k, x) :: (k', y) :: l'
  end.

Definition sort_desc (l : list (Z * dict)) : list (Z * dict) :=
  foldr (fun kx acc => insert_desc (fst kx) (snd kx) acc) [] l.

Definition sorted_by_timestamp (items : list dict) : option (list dict) :=
  match with_keys items with
  | Some keyed => Some (map snd (sort_desc keyed))
  | None => None
  end.

(** The first part of [list_transactions]: the items before filtering. *)
Definition scan_items (cfg : config) (scan : dynamo_reply (list dict))
    (limit : Z) : handler (list dict) :=
  fun st =>
    if durable_enabled cfg then
      match scan with
      | DynamoOk items =>
          match sorted_by_timestamp items with
          | Some sorted => (Return (Py.slice_to limit sorted), st)
          | None => (Uncaught, st)
          end
      | DynamoBotoError =>
          (Return (Py.slice_to limit (transactions_store st)), st)
      | DynamoOtherError => (Uncaught, st)
      end
    else (Return (Py.slice_to limit (transactions_store st)), st).

(** [allow_clear]: [os.getenv("ALLOW_CLEAR", "false").lower() in
    ("1", "true", "yes")]. *)
Definition allow_clear (cfg : config) : bool :=
  let v := Py.lower (getenv_default cfg "ALLOW_CLEAR" "false") in
  existsb (String.eqb v) ["1"; "true"; "yes"].

Definition CLEAR_DISABLED : string :=
  "Clearing DynamoDB-backed records is disabled in this environment.".

(** [DELETE /transactions]; the returned [{"ok": True}] is the [Return]. *)
Definition clear_transactions (cfg : config) : handler unit :=
  fun st =>
    if Py.opt_truthy (getenv cfg "DDB_TABLE") && negb (allow_clear cfg) then
      (HTTPException 403 CLEAR_DISABLED, st)
    else
      (Return tt,
       {| transactions_store := []; dynamo_items := dynamo_items st |}).

(** The audience passed to the verifier: the value of
    [GOOGLE_OAUTH_CLIENT_ID] when it is set and not empty; otherwise the
    verifier is called without one. *)
Definition expected_audience (cfg : config) : option string :=
  let audience := getenv cfg "GOOGLE_OAUTH_CLIENT_ID" in
  if Py.opt_truthy audience then audience else None.

(** ** The handlers that call library functions *)

Section Handlers.

(** [json.loads] ([None] when it raises), [json.dumps] (likewise), and
    [google.oauth2.id_token.verify_oauth2_token] applied to a token and,
    when one is configured, the expected audience ([None] when it
    raises). *)
Variable json_loads : string -> option value.
Variable json_dumps : value -> option string.
Variable verify_oauth2_token : string -> option string -> option value.

Definition INVALID_TOKEN : string := "Invalid Google ID token".

Definition MISSING_AUTH : string :=
  "Missing authentication. Provide Authorization Bearer token or X-User header.".

(** The body of the [try] block of [create_transaction]: [None] when
    anything in it raises. *)
Definition token_identity (cfg : config) (token : string) : option string :=
  match verify_oauth2_token token (expected_audience cfg) with
  | Some (VDict payload) =>
      json_dumps (VDict [ ("name", py_get "name" payload);
                          ("email", py_get "email" payload) ])
  | Some _ => None
  | None => None
  end.

(** [authorization and authorization.startswith("Bearer ")]. *)
Definition is_bearer (authorization : option string) : bool :=
  match authorization with
  | Some a => Py.str_truthy a && Py.startswith a "Bearer "
  | None => false
  end.

(** The value of [user_header] before the final test. *)
Definition user_header_of (cfg : config) (x_user authorization : option string)
    : handler (option string) :=
  if is_bearer authorization then
    match authorization with
    | Some a =>
        match snd (Py.split1 " "%char a) with
        | Some token =>
            match token_identity cfg token with
            | Some ident => mret (Some ident)
            | None => raise 401 INVALID_TOKEN
            end
        | None => crash
        end
    | None => crash
    end
  else if Py.opt_truthy x_user then mret x_user
  else mret None.

Definition resolve_identity (cfg : config) (x_user authorization : option string)
    : handler string :=
  user_header ← user_header_of cfg x_user authorization;
  match user_header with
  | Some u => if Py.str_truthy u then mret u else raise 401 MISSING_AUTH
  | None => raise 401 MISSING_AUTH
  end.

(** [POST /transactions]. *)
Definition create_transaction (cfg : config) (w : create_world)
    (transaction : Transaction) (x_user authorization : option string)
    : handler dict :=
  user_header ← resolve_identity cfg x_user authorization;
  let transaction := classify cfg (risk_reply w) transaction in
  let record := build_record w user_header transaction in
  saved_to_ddb ← save_transaction_record cfg (put_reply w) record;
  mret record.

(** The local function [extract_email] of [list_transactions]. *)
Definition extract_email (s : string) : value :=
  match json_loads s with
  | Some (VDict j) => py_get "email" j
  | Some _ => VNone
  | None => VNone
  end.

(** One turn of the filtering loop: [filtered] after the item [it]. *)
Definition filter_step (x_user : string) (hdr_email : value)
    (filtered : list dict) (it : dict) : list dict :=
  let u := py_get "user" it in
  if negb (Py.truthy u) then filtered
  else if Py.eq u (VStr x_user) then filtered ++ [it]
  else
    let stored_email :=
      match u with
      | VStr s => extract_email s
      | _ => VNone
      end in
    if Py.truthy hdr_email && Py.truthy stored_email
       && Py.eq hdr_email stored_email
    then filtered ++ [it]
    else filtered.

(** The second part of [list_transactions]. *)
Definition filter_items (x_user : option string) (limit : Z)
    (items : list dict) : list dict :=
  match x_user with
  | Some xu =>
      if Py.str_truthy xu then
        let hdr_email := extract_email xu in
        let filtered := fold_left (filter_step xu hdr_email) items [] in
        Py.slice_to limit filtered
      else items
  | None => items
  end.

(** [GET /transactions]; the result is the list under ["items"]. *)
Definition list_transactions (cfg : config) (scan : dynamo_reply (list dict))
    (limit : Z) (x_user : option string) : handler (list dict) :=
  items ← scan_items cfg scan limit;
  mret (filter_items x_user limit items).

End Handlers.

(** ** Sequences of inserts *)

(** A run of [save_transaction_record] calls, each with the answer DynamoDB
    gives to it; a call that raises leaves the state as it was. *)
Definition run_saves (cfg : config) (calls : list (dict * dynamo_reply unit))
    (st : state) : state :=
  fold_left
    (fun st call => snd (save_transaction_record cfg (snd call) (fst call) st))
    calls st.

(** ** The filter of [list_transactions], as the specification words it *)

Section Matching.

Variable json_loads : string -> option value.

(** The record's identity is a non-empty string that equals the filter, or
    both decode to an email, the two emails are non-empty and equal. *)
Definition identity_matches (x_user : string) (it : dict) : bool :=
  match py_get "user" it with
  | VStr u =>
      negb (String.eqb u "") &&
      (String.eqb u x_user ||
       (Py.truthy (extract_email json_loads x_user) &&
        Py.truthy (extract_email json_loads u) &&
        Py.eq (extract_email json_loads x_user) (extract_email json_loads u)))
  | _ => false
  end.

(** The same without the requirement that the emails be non-empty: the
    identity equals the filter, or both decode as JSON objects and the
    decoded emails are equal. *)
Definition identity_matches_any_email (x_user : string) (it : dict) : bool :=
  match py_get "user" it with
  | VStr u =>
      String.eqb u x_user ||
      match json_loads x_user, json_loads u with
      | Some (VDict j), Some (VDict k) =>
          Py.eq (py_get "email" j) (py_get "email" k)
      | _, _ => false
      end
  | _ => false
  end.

End Matching.

(** Descending order of the sort keys. *)
Definition key_ge (x y : dict) : Prop :=
  exists kx ky, timestamp_key x = Some kx /\ timestamp_key y = Some ky /\ ky <= kx.

(** The same on items paired with their key, and the pairing itself. *)
Definition keys_desc (a b : Z * dict) : Prop := fst b <= fst a.

Definition keyed_ok (kx : Z * dict) : Prop := timestamp_key (snd kx) = Some (fst kx).

(** ** Sample data for the examples *)

Module Sample.

Definition dq : string := String "034"%char EmptyString.

(** The text [{"name": "Alice", "email": "alice@example.com"}]. *)
Definition alice_json : string :=
  "{" +:+ dq +:+ "name" +:+ dq +:+ ": " +:+ dq +:+ "Alice" +:+ dq +:+ ", "
      +:+ dq +:+ "email" +:+ dq +:+ ": " +:+ dq +:+ "alice@example.com" +:+ dq +:+ "}".

(** The text [{"email": "alice@example.com"}]. *)
Definition alice_email_json : string :=
  "{" +:+ dq +:+ "email" +:+ dq +:+ ": " +:+ dq +:+ "alice@example.com" +:+ dq +:+ "}".

(** The texts [{"email": ""}] and [{"email": "", "name": "Bob"}]. *)
Definition blank_email_json : string :=
  "{" +:+ dq +:+ "email" +:+ dq +:+ ": " +:+ dq +:+ dq +:+ "}".

Definition blank_email_bob_json : string :=
  "{" +:+ dq +:+ "email" +:+ dq +:+ ": " +:+ dq +:+ dq +:+ ", "
      +:+ dq +:+ "name" +:+ dq +:+ ": " +:+ dq +:+ "Bob" +:+ dq +:+ "}".

Definition alice_claims : dict :=
  [ ("name", VStr "Alice"); ("email", VStr "alice@example.com") ].

(** [json.loads] on the strings of the examples: the four JSON texts
    above decode to the objects shown; the other strings used ("alice",
    "bob") are not JSON texts and make it raise. *)
Definition loads (s : string) : option value :=
  if String.eqb s alice_json then Some (VDict alice_claims)
  else if String.eqb s alice_email_json then
    Some (VDict [("email", VStr "alice@example.com")])
  else if String.eqb s blank_email_json then Some (VDict [("email", VStr "")])
  else if String.eqb s blank_email_bob_json then
    Some (VDict [("email", VStr ""); ("name", VStr "Bob")])
  else None.

(** [json.dumps] on the one object the examples serialise. *)
Definition dumps (v : value) : option string :=
  match v with
  | VDict [ (k1, VStr n); (k2, VStr e) ] =>
      if String.eqb k1 "name" && String.eqb n "Alice" &&
         String.eqb k2 "email" && String.eqb e "alice@example.com"
      then Some alice_json else None
  | _ => None
  end.

(** A verifier that accepts the token [alice-token] and rejects every
    other one. *)
Definition verify (token : string) (audience : option string) : option value :=
  if String.eqb token "alice-token" then
    Some (VDict (("iss", VStr "https://accounts.google.com") :: alice_claims))
  else None.

Definition env (kvs : list (string * string)) : gmap string string :=
  list_to_map kvs.

(** No DynamoDB table configured. *)
Definition cfg_memory : config := {| environ := env []; boto3 := true |}.

(** A table name configured, the client library installed. *)
Definition cfg_durable : config :=
  {| environ := env [("DDB_TABLE", "transactions")]; boto3 := true |}.

(** A table name configured and the clear override set. *)
Definition cfg_durable_override : config :=
  {| environ := env [("DDB_TABLE", "transactions"); ("ALLOW_CLEAR", "Yes")];
     boto3 := true |}.

(** A table name configured, but [import boto3] failed. *)
Definition cfg_no_boto : config :=
  {| environ := env [("DDB_TABLE", "transactions")]; boto3 := false |}.

Definition transaction (amt : Z) : Transaction :=
  {| amount := FFin (inject_Z amt); currency := "USD"; merchant := "ACME";
     high_risk := false; risk_level := VNone |}.

Definition world (risk : risk_response) (put : dynamo_reply unit) : create_world :=
  {| risk_reply := risk; uuid4 := "7f1c"; time_now := 1700000000;
     put_reply := put |}.

Definition record_of (id user : string) (ts : Z) : dict :=
  [ ("id", VStr id); ("timestamp", VInt ts); ("user", VStr user);
    ("amount", VFloat (FFin (inject_Z 50))); ("currency", VStr "USD");
    ("merchant", VStr "ACME"); ("risk_level", VStr "LOW");
    ("high_risk", VBool false) ].

Definition store_of (records : list dict) : state :=
  {| transactions_store := records; dynamo_items := [] |}.

(** [n] inserts, the [i]-th with timestamp [i], DynamoDB failing each time
    it is tried. *)
Definition inserts (n : nat) : list (dict * dynamo_reply unit) :=
  map (fun i => (record_of "tx" "alice" (Z.of_nat i), DynamoBotoError)) (seq 0 n).

End Sample.

(** ** Words of the specification *)

(** The risk service reported the tier [tier]. *)
Definition reports_tier (r : risk_response) (tier : string) : Prop :=
  In tier TIERS /\ reported_level (risk_data r) = VStr tier.

(** The risk service provided no recognised tier. *)
Definition no_tier (r : risk_response) : Prop :=
  forall tier, In tier TIERS -> reported_level (risk_data r) <> VStr tier.

(** The DynamoDB write is attempted and raises an exception that
    [save_transaction_record] does not catch. *)
Definition save_raises (cfg : config) (put : dynamo_reply unit) : bool :=
  durable_enabled cfg &&
  match put with
  | DynamoOtherError => true
  | _ => false
  end.

(** The DynamoDB write is attempted and succeeds. *)
Definition written_durably (cfg : config) (put : dynamo_reply unit) : bool :=
  durable_enabled cfg &&
  match put with
  | DynamoOk _ => true
  | _ => false
  end.

(** A DynamoDB table name is configured. *)
Definition table_configured (cfg : config) : Prop :=
  exists name, getenv cfg "DDB_TABLE" = Some name /\ name <> "".

(** The operator override of the clear guard is set. *)
Definition operator_override (cfg : config) : Prop :=
  exists v, getenv cfg "ALLOW_CLEAR" = Some v /\
            In (Py.lower v) ["1"; "true"; "yes"].

(** ** Decimal numerals *)

(** The ASCII digit of a value below ten, the numeral written with a list of
    such digits, most significant first, and the integer it denotes. *)
Definition digit_char (d : nat) : ascii := ascii_of_nat (48 + d).

Definition numeral (ds : list nat) : string :=
  string_of_list_ascii (map digit_char ds).

Definition numeral_value (ds : list nat) : Z :=
  fold_left (fun acc d => 10 * acc + Z.of_nat d) ds 0.

(** ** The stand-in risk service ([mock_risk.py]) *)

Module MockRisk.

(** The request body of [POST /risk]. *)
Record RiskRequest : Type := {
  amount : pyfloat;
  merchant : option string
}.

(** [POST /risk]: the tier of the amount, as the JSON object returned. *)
Definition risk (req : RiskRequest) : dict :=
  let level :=
    if Py.float_gt_int (amount req) 10000 then "HIGH"
    else if Py.float_gt_int (amount req) 1000 then "MEDIUM"
    else "LOW" in
  [ ("risk_level", VStr level) ].

End MockRisk.

(** The body [create_transaction] posts to the risk service, and the answer
    it reads back when that service is the stand-in one. *)
Definition risk_request_of (t : Transaction) : MockRisk.RiskRequest :=
  {| MockRisk.amount := amount t; MockRisk.merchant := Some (merchant t) |}.

Definition mock_reply (t : Transaction) : risk_response :=
  RiskJson (VDict (MockRisk.risk (risk_request_of t))).

(** The same world with another answer of the risk service. *)
Definition with_risk_reply (w : create_world) (r : risk_response) : create_world :=
  {| risk_reply := r; uuid4 := uuid4 w; time_now := time_now w;
     put_reply := put_reply w |}.

(** ** The two authentication endpoints *)

(** The request body of [POST /auth/verify]. *)
Record TokenBody : Type := { id_token : string }.

Definition MISSING_ID_TOKEN : string := "Missing id_token in body".

Section AuthHandlers.

(** The verifier, and the text [str(e)] of the exception it raises when it
    rejects a token. *)
Variable verify_oauth2_token : string -> option string -> option value.
Variable verify_error_text : string -> option string -> string.

(** [POST /auth/verify]. *)
Definition verify_id_token (cfg : config) (body : TokenBody) : handler dict :=
  let token := id_token body in
  if negb (Py.str_truthy token) then raise 400 MISSING_ID_TOKEN
  else
    match verify_oauth2_token token (expected_audience cfg) with
    | Some payload => mret [ ("ok", VBool true); ("payload", payload) ]
    | None =>
        raise 401 ("Token verification failed: "
                   +:+ verify_error_text token (expected_audience cfg))
    end.

End AuthHandlers.

(** The value of [os.getenv(name)] as a JSON value. *)
Definition value_of_env (o : option string) : value :=
  match o with
  | Some s => VStr s
  | None => VNone
  end.

(** [GET /auth/config]. *)
Definition auth_config (cfg : config) : handler dict :=
  mret [ ("client_id", value_of_env (getenv cfg "GOOGLE_OAUTH_CLIENT_ID"));
         ("project_id", value_of_env (getenv cfg "GOOGLE_PROJECT_ID")) ].

(** ** Sequences of requests *)

(** One request to the application, with what the outside world answers
    while it is served. *)
Inductive request : Type :=
| PostTransactions (w : create_world) (transaction : Transaction)
    (x_user authorization : option string)
| GetTransactions (scan : dynamo_reply (list dict)) (limit : Z)
    (x_user : option string)
| DeleteTransactions
| PostAuthVerify (body : TokenBody)
| GetAuthConfig.

Section Server.

Variable json_loads : string -> option value.
Variable json_dumps : value -> option string.
Variable verify_oauth2_token : string -> option string -> option value.
Variable verify_error_text : string -> option string -> string.

(** The state after one request. *)
Definition serve (cfg : config) (r : request) (st : state) : state :=
  match r with
  | PostTransactions w transaction x_user authorization =>
      snd (create_transaction json_dumps verify_oauth2_token cfg w transaction
             x_user authorization st)
  | GetTransactions scan limit x_user =>
      snd (list_transactions json_loads cfg scan limit x_user st)
  | DeleteTransactions => snd (clear_transactions cfg st)
  | PostAuthVerify body =>
      snd (verify_id_token verify_oauth2_token verify_error_text cfg body st)
  | GetAuthConfig => snd (auth_config cfg st)
  end.

(** The state after a sequence of requests, served one after the other. *)
Definition serve_all (cfg : config) (rs : list request) (st : state) : state :=
  fold_left (fun st r => serve cfg r st) rs st.

End Server.

(** The keys of a record, in the order [create_transaction] writes them. *)
Definition RECORD_KEYS : list string :=
  [ "id"; "timestamp"; "user"; "amount"; "currency"; "merchant";
    "risk_level"; "high_risk" ].

(** A record as [create_transaction] builds them: the eight keys, a
    non-empty identity string, a tier and a boolean flag. *)
Definition well_formed_record (r : dict) : Prop :=
  map fst r = RECORD_KEYS /\
  (exists u, dict_get "user" r = Some (VStr u) /\ u <> "") /\
  (exists tier, In tier TIERS /\ dict_get "risk_level" r = Some (VStr tier)) /\
  (exists b, dict_get "high_risk" r = Some (VBool b)).

(** A record tiered HIGH is flagged. *)
Definition high_is_flagged (r : dict) : Prop :=
  dict_get "risk_level" r = Some (VStr "HIGH") ->
  dict_get "high_risk" r = Some (VBool true).

(** The key of an item of the sort, when it can be computed, is [k]. *)
Definition has_key (k : Z) (x : dict) : bool :=
  match timestamp_key x with
  | Some k' => k' =? k
  | None => false
  end.

(** More sample data. *)
Module Demo.


Definition alice_record : dict :=
  [ ("id", VStr "7f1c"); ("timestamp", VInt 1700000000);
    ("user", VStr "alice"); ("amount", VFloat (FFin (inject_Z 6000)));
    ("currency", VStr "USD"); ("merchant", VStr "ACME");
    ("risk_level", VStr "MEDIUM"); ("high_risk", VBool true) ].

(** A threshold of 5000. *)
Definition cfg_5000 : config :=
  {| environ := Sample.env [("HIGH_RISK_AMOUNT", "5000")]; boto3 := false |}.

(** A configured OAuth client. *)
Definition cfg_oauth : config :=
  {| environ := Sample.env [("GOOGLE_OAUTH_CLIENT_ID", "client-1")];
     boto3 := false |}.

End Demo.

(** * Properties *)

(** ** Sanity checks of the model on concrete inputs *)

Example int_of_str_default : Py.int_of_str "10000" = Some 10000.
Proof. reflexivity. Qed.

Example int_of_str_samples :
  Py.int_of_str " -1_000 " = Some (-1000) /\ Py.int_of_str "1e4" = None /\
  Py.int_of_str "1__0" = None /\ Py.int_of_str "" = None /\
  Py.int_of_str "+" = None /\ Py.int_of_str "12_" = None.
Proof. repeat split; reflexivity. Qed.

(** White space and digits outside ASCII: a file separator is not skipped,
    a no-break space is; fullwidth and Arabic-Indic digits are digits; an
    overlong encoding of the digit 1 is not. *)
Example int_of_str_unicode :
  Py.int_of_str (String "028" "5000") = None /\
  Py.int_of_str (String "194" (String "160" "5000")) = Some 5000 /\
  Py.int_of_str
    (string_of_list_ascii
       (map ascii_of_nat [239; 188; 149; 239; 188; 144; 239; 188; 144;
                          239; 188; 144]%nat)) = Some 5000 /\
  Py.int_of_str
    (string_of_list_ascii (map ascii_of_nat [45; 217; 161; 217; 162]%nat))
  = Some (-12) /\
  Py.int_of_str (string_of_list_ascii (map ascii_of_nat [192; 177]%nat)) = None.
Proof. repeat split; vm_compute; reflexivity. Qed.

Example int_of_str_digit_cap :
  Py.int_of_str (numeral (repeat 1%nat 4301)) = None /\
  Py.int_of_str (numeral (repeat 0%nat 4300)) = Some 0 /\
  Py.int_of_str (numeral [5; 0; 0; 0]%nat) = Some 5000.
Proof. repeat split; vm_compute; reflexivity. Qed.

Example slice_to_samples :
  Py.slice_to 2 [1; 2; 3] = [1; 2] /\ Py.slice_to (-1) [1; 2; 3] = [1; 2] /\
  Py.slice_to 0 [1; 2; 3] = [] /\ Py.slice_to (-5) [1; 2; 3] = [] /\
  Py.slice_to 7 [1; 2; 3] = [1; 2; 3].
Proof. repeat split; reflexivity. Qed.

Example split1_bearer :
  Py.split1 " "%char "Bearer abc def" = ("Bearer", Some "abc def").
Proof. reflexivity. Qed.

Example create_15000_no_risk_service :
  fst (create_transaction Sample.dumps Sample.verify Sample.cfg_memory
         (Sample.world RiskUnreachable DynamoBotoError) (Sample.transaction 15000)
         (Some "alice") None initial_state)
  = Return [ ("id", VStr "7f1c"); ("timestamp", VInt 1700000000);
             ("user", VStr "alice"); ("amount", VFloat (FFin (inject_Z 15000)));
             ("currency", VStr "USD"); ("merchant", VStr "ACME");
             ("risk_level", VStr "HIGH"); ("high_risk", VBool true) ].
Proof. vm_compute. reflexivity. Qed.


(** ** Python equality against a string *)

Lemma py_eq_str (v : value) (s : string) :
  Py.eq v (VStr s) = true <-> v = VStr s.
Proof.
  destruct v; simpl; try (split; [discriminate | intros E; discriminate E]).
  rewrite String.eqb_eq.
  split; [intros ->; reflexivity | intros E; inversion E; reflexivity].
Qed.

Lemma py_eq_str_false (v : value) (s : string) :
  Py.eq v (VStr s) = false <-> v <> VStr s.
Proof.
  rewrite <- py_eq_str. destruct (Py.eq v (VStr s)); split; congruence.
Qed.

Lemma in_strs_true (v : value) (xs : list string) :
  Py.in_strs v xs = true <-> exists s, In s xs /\ v = VStr s.
Proof.
  unfold Py.in_strs. rewrite existsb_exists.
  split; intros (s & Hin & E); exists s; split; auto; now apply py_eq_str.
Qed.

Lemma in_strs_false (v : value) (xs : list string) :
  Py.in_strs v xs = false <-> forall s, In s xs -> v <> VStr s.
Proof.
  split.
  - intros E s Hin ->.
    assert (Py.in_strs (VStr s) xs = true) by (apply in_strs_true; eauto).
    congruence.
  - intros H. destruct (Py.in_strs v xs) eqn:E; [|reflexivity].
    apply in_strs_true in E as (s & Hin & ->). now destruct (H s Hin).
Qed.

(** ** Classification *)

Lemma classify_reported (cfg : config) (r : risk_response) (t : Transaction)
    (tier : string) :
  reports_tier r tier ->
  risk_level (classify cfg r t) = VStr tier /\
  high_risk (classify cfg r t) = String.eqb tier "HIGH".
Proof.
  intros [Hin E].
  assert (Ht : Py.in_strs (VStr tier) TIERS = true) by (apply in_strs_true; eauto).
  unfold classify, display_level, is_high. cbn [risk_level high_risk amount].
  rewrite E, Ht. split; [reflexivity|].
  simpl in Hin. destruct Hin as [<- | [<- | [<- | []]]]; reflexivity.
Qed.

Lemma classify_no_tier (cfg : config) (r : risk_response) (t : Transaction) :
  no_tier r ->
  risk_level (classify cfg r t) = VStr (amount_tier (amount t)) /\
  high_risk (classify cfg r t) = Py.float_ge_int (amount t) (HIGH_RISK_AMOUNT cfg).
Proof.
  intros H. unfold classify, display_level, is_high.
  cbn [risk_level high_risk amount].
  set (level := reported_level (risk_data r)).
  assert (Hn : forall s, In s TIERS -> Py.eq level (VStr s) = false).
  { intros s Hin. apply py_eq_str_false. now apply H. }
  assert (Ht : Py.in_strs level TIERS = false) by (apply in_strs_false; exact H).
  rewrite Ht, !Hn by (simpl; auto). split; [reflexivity|].
  now destruct (Py.float_ge_int (amount t) (HIGH_RISK_AMOUNT cfg)).
Qed.

Lemma no_tier_or_reports (r : risk_response) :
  no_tier r \/ exists tier, reports_tier r tier.
Proof.
  destruct (Py.in_strs (reported_level (risk_data r)) TIERS) eqn:E.
  - right. apply in_strs_true in E as (s & Hin & E). exists s. now split.
  - left. unfold no_tier. now apply in_strs_false.
Qed.

Lemma no_tier_unreachable : no_tier RiskUnreachable /\ no_tier RiskNotJson.
Proof. split; intros tier _; discriminate. Qed.

(** ** Storage *)

Lemma save_transaction_record_cases (cfg : config) (put : dynamo_reply unit)
    (record : dict) (st : state) :
  save_transaction_record cfg put record st =
  if save_raises cfg put then (Uncaught, st)
  else if written_durably cfg put then
    (Return true,
     {| transactions_store := transactions_store st;
        dynamo_items := record :: dynamo_items st |})
  else
    (Return false,
     {| transactions_store := store_insert record (transactions_store st);
        dynamo_items := dynamo_items st |}).
Proof.
  unfold save_transaction_record, save_raises, written_durably.
  destruct (durable_enabled cfg), put; reflexivity.
Qed.

(** ** Amount thresholds on finite amounts *)

Lemma float_ge_int_fin (q : Q) (n : Z) :
  Py.float_ge_int (FFin q) n = true <-> (inject_Z n <= q)%Q.
Proof. apply Qle_bool_iff. Qed.

Lemma float_gt_int_fin (q : Q) (n : Z) :
  Py.float_gt_int (FFin q) n = true <-> (inject_Z n < q)%Q.
Proof.
  unfold Py.float_gt_int. rewrite negb_true_iff, <- not_true_iff_false, Qle_bool_iff.
  split; [apply Qnot_le_lt | apply Qlt_not_le].
Qed.

Lemma amount_tier_bands (q : Q) :
  ((inject_Z 10000 < q)%Q -> amount_tier (FFin q) = "HIGH") /\
  ((inject_Z 1000 < q)%Q -> (q <= inject_Z 10000)%Q ->
     amount_tier (FFin q) = "MEDIUM") /\
  ((q <= inject_Z 1000)%Q -> amount_tier (FFin q) = "LOW").
Proof.
  unfold amount_tier.
  destruct (Py.float_gt_int (FFin q) 10000) eqn:E1;
    destruct (Py.float_gt_int (FFin q) 1000) eqn:E2;
    try apply float_gt_int_fin in E1; try apply float_gt_int_fin in E2;
    repeat split; intros; try reflexivity; exfalso.
  all: repeat match goal with
       | H : Py.float_gt_int _ _ = false |- _ =>
           apply not_true_iff_false in H; rewrite float_gt_int_fin in H
       end.
  all: unfold Qlt, Qle in *; simpl in *; lia.
Qed.

Lemma amount_tier_special :
  amount_tier FNaN = "LOW" /\ amount_tier (FInf false) = "HIGH" /\
  amount_tier (FInf true) = "LOW".
Proof. repeat split; reflexivity. Qed.

Lemma default_threshold (cfg : config) :
  getenv cfg "HIGH_RISK_AMOUNT" = None -> HIGH_RISK_AMOUNT cfg = 10000.
Proof.
  unfold getenv, HIGH_RISK_AMOUNT, getenv_default. intros ->. reflexivity.
Qed.

Lemma threshold_unparsable (cfg : config) (s : string) :
  getenv cfg "HIGH_RISK_AMOUNT" = Some s -> Py.int_of_str s = None ->
  HIGH_RISK_AMOUNT cfg = 10000.
Proof.
  unfold getenv, HIGH_RISK_AMOUNT, getenv_default. intros -> ->. reflexivity.
Qed.

Lemma threshold_configured (cfg : config) (s : string) (n : Z) :
  getenv cfg "HIGH_RISK_AMOUNT" = Some s -> Py.int_of_str s = Some n ->
  HIGH_RISK_AMOUNT cfg = n.
Proof.
  unfold getenv, HIGH_RISK_AMOUNT, getenv_default. intros -> ->. reflexivity.
Qed.

(** ** [int()] on decimal numerals *)

Lemma digit_char_facts (d : nat) :
  (d < 10)%nat ->
  Py.is_digit (digit_char d) = true /\
  Py.is_space (digit_char d) = false /\
  Py.digit_val (digit_char d) = Z.of_nat d /\
  Ascii.eqb (digit_char d) "-" = false /\
  Ascii.eqb (digit_char d) "+" = false.
Proof.
  intros H. do 10 (destruct d as [|d]; [repeat split; reflexivity|]). lia.
Qed.

Lemma utf8_decode_digit (d : nat) (l : list ascii) :
  (d < 10)%nat ->
  Py.utf8_decode (digit_char d :: l) =
  cons (48 + Z.of_nat d) <$> Py.utf8_decode l.
Proof.
  intros H. do 10 (destruct d as [|d]; [reflexivity|]). lia.
Qed.

Lemma to_ascii_digit (d : nat) (cps : list Z) :
  (d < 10)%nat ->
  Py.to_ascii (48 + Z.of_nat d :: cps) = cons (digit_char d) <$> Py.to_ascii cps.
Proof.
  intros H. do 10 (destruct d as [|d]; [reflexivity|]). lia.
Qed.

Lemma numeral_text (ds : list nat) :
  Forall (fun d => (d < 10)%nat) ds ->
  Py.utf8_decode (map digit_char ds) = Some (map (fun d => 48 + Z.of_nat d) ds) /\
  Py.to_ascii (map (fun d => 48 + Z.of_nat d) ds) = Some (map digit_char ds).
Proof.
  induction 1 as [|d ds Hd _ [IHd IHa]]; [split; reflexivity|].
  cbn [map]. rewrite utf8_decode_digit, to_ascii_digit by exact Hd.
  rewrite IHd, IHa. split; reflexivity.
Qed.

Lemma lstrip_no_space (l : list ascii) :
  Forall (fun c => Py.is_space c = false) l -> Py.lstrip l = l.
Proof.
  destruct 1 as [|c l Hc _]; [reflexivity|]. cbn [Py.lstrip]. now rewrite Hc.
Qed.

Lemma strip_no_space (l : list ascii) :
  Forall (fun c => Py.is_space c = false) l -> Py.strip l = l.
Proof.
  intros H. unfold Py.strip. rewrite (lstrip_no_space l H).
  rewrite lstrip_no_space by (apply Forall_rev; exact H).
  apply rev_involutive.
Qed.

Lemma digits_numeral (ds : list nat) : forall acc,
  Forall (fun d => (d < 10)%nat) ds ->
  Py.digits acc true (map digit_char ds) =
  Some (fold_left (fun acc d => 10 * acc + Z.of_nat d) ds acc).
Proof.
  induction ds as [|d ds IH]; intros acc H; [reflexivity|].
  inversion H as [|? ? Hd Hds]; subst.
  destruct (digit_char_facts d Hd) as (Hdig & _ & Hval & _).
  cbn [map Py.digits fold_left]. rewrite Hdig, Hval. now apply IH.
Qed.

Lemma digit_count_numeral (ds : list nat) :
  Forall (fun d => (d < 10)%nat) ds ->
  Py.digit_count (map digit_char ds) = Z.of_nat (length ds).
Proof.
  unfold Py.digit_count. intros H. f_equal.
  induction H as [|d ds Hd _ IH]; [reflexivity|].
  destruct (digit_char_facts d Hd) as (Hdig & _).
  cbn [map List.filter]. rewrite Hdig. cbn [length]. now rewrite IH.
Qed.

(** [int()] reads a decimal numeral of at most 4300 digits as the integer
    it denotes. *)
Lemma int_of_str_numeral (ds : list nat) :
  ds <> [] -> Forall (fun d => (d < 10)%nat) ds -> (length ds <= 4300)%nat ->
  Py.int_of_str (numeral ds) = Some (numeral_value ds).
Proof.
  intros Hne Hds Hlen. unfold Py.int_of_str, numeral, numeral_value.
  rewrite list_ascii_of_string_of_list_ascii.
  destruct (numeral_text ds Hds) as [-> ->].
  rewrite strip_no_space.
  2:{ apply Forall_map. eapply Forall_impl; [exact Hds|].
      intros d Hd. apply (digit_char_facts d Hd). }
  destruct ds as [|d ds]; [now destruct Hne|].
  inversion Hds as [|? ? Hd Hds']; subst.
  destruct (digit_char_facts d Hd) as (Hdig & _ & Hval & Hminus & Hplus).
  cbn [map]. rewrite Hminus, Hplus. unfold Py.unsigned.
  change (digit_char d :: map digit_char ds) with (map digit_char (d :: ds)).
  rewrite (digit_count_numeral (d :: ds) Hds).
  unfold Py.MAX_STR_DIGITS.
  destruct (Z.ltb_spec 4300 (Z.of_nat (length (d :: ds)))) as [Hgt | _]; [lia|].
  cbn [map Py.digits fold_left]. rewrite Hdig, Hval.
  now apply digits_numeral.
Qed.

(** ** Identity resolution and record creation *)

Section HandlerFacts.

Variable json_dumps : value -> option string.
Variable verify_oauth2_token : string -> option string -> option value.

Local Abbreviation resolve := (resolve_identity json_dumps verify_oauth2_token).
Local Abbreviation create := (create_transaction json_dumps verify_oauth2_token).

Lemma user_header_of_state cfg x_user authorization st :
  snd (user_header_of json_dumps verify_oauth2_token cfg x_user authorization st) = st.
Proof.
  unfold user_header_of.
  destruct (is_bearer authorization); [|destruct (Py.opt_truthy x_user); reflexivity].
  destruct authorization as [a|]; [|reflexivity].
  destruct (snd (Py.split1 " " a)) as [token|]; [|reflexivity].
  destruct (token_identity json_dumps verify_oauth2_token cfg token); reflexivity.
Qed.

(** Resolving the identity never touches the state. *)
Lemma resolve_identity_state cfg x_user authorization st :
  snd (resolve cfg x_user authorization st) = st.
Proof.
  unfold resolve_identity, mbind, handler_bind.
  pose proof (user_header_of_state cfg x_user authorization st) as H.
  destruct (user_header_of _ _ cfg x_user authorization st) as [[[u|]|c d|] st1];
    simpl in H; subst st1; try reflexivity.
  destruct (Py.str_truthy u); reflexivity.
Qed.

(** [create_transaction] returns exactly when the identity resolves and the
    write does not raise; it then returns the record built from the
    classified transaction, and the state is the one the save leaves. *)
Lemma create_transaction_returns cfg w t x_user authorization st user :
  resolve cfg x_user authorization st = (Return user, st) ->
  save_raises cfg (put_reply w) = false ->
  let record := build_record w user (classify cfg (risk_reply w) t) in
  create cfg w t x_user authorization st =
  (Return record, snd (save_transaction_record cfg (put_reply w) record st)).
Proof.
  intros Hid Hsave record.
  unfold create_transaction, mbind, handler_bind.
  rewrite Hid. fold record.
  rewrite save_transaction_record_cases, Hsave.
  destruct (written_durably cfg (put_reply w)); reflexivity.
Qed.

Lemma create_transaction_inv cfg w t x_user authorization st record st' :
  create cfg w t x_user authorization st = (Return record, st') ->
  exists user,
    resolve cfg x_user authorization st = (Return user, st) /\
    save_raises cfg (put_reply w) = false /\
    record = build_record w user (classify cfg (risk_reply w) t) /\
    st' = snd (save_transaction_record cfg (put_reply w) record st).
Proof.
  unfold create_transaction, mbind, handler_bind.
  pose proof (resolve_identity_state cfg x_user authorization st) as Hst.
  destruct (resolve cfg x_user authorization st) as [[user|c d|] st1];
    simpl in Hst; subst st1; try discriminate.
  rewrite save_transaction_record_cases.
  destruct (save_raises cfg (put_reply w)) eqn:Hs; [discriminate|].
  destruct (written_durably cfg (put_reply w)) eqn:Hw;
    unfold mret, handler_ret; intros E; inversion E; subst;
    exists user; repeat split; rewrite save_transaction_record_cases, Hs, Hw;
    reflexivity.
Qed.

(** A failed request leaves the state as it was. *)
Lemma create_transaction_failure_state cfg w t x_user authorization st :
  (forall record, fst (create cfg w t x_user authorization st) <> Return record) ->
  snd (create cfg w t x_user authorization st) = st.
Proof.
  unfold create_transaction, mbind, handler_bind.
  pose proof (resolve_identity_state cfg x_user authorization st) as Hst.
  destruct (resolve cfg x_user authorization st) as [[user|c d|] st1];
    simpl in Hst; subst st1; try reflexivity.
  rewrite save_transaction_record_cases.
  destruct (save_raises cfg (put_reply w)); [reflexivity|].
  destruct (written_durably cfg (put_reply w)); unfold mret, handler_ret;
    simpl; intros H; edestruct H; reflexivity.
Qed.

End HandlerFacts.

Lemma store_insert_head (record : dict) (store : list dict) :
  head (store_insert record store) = Some record.
Proof.
  unfold store_insert, STORE_CAPACITY.
  destruct (200 <? length (record :: store))%nat eqn:E; [|reflexivity].
  destruct store as [|r store]; [discriminate E | reflexivity].
Qed.

Lemma head_In {A : Type} (x : A) (l : list A) : head l = Some x -> In x l.
Proof. destruct l as [|y l]; [discriminate|]. intros [= ->]. now left. Qed.

Lemma slice_to_head {A : Type} (n : Z) (x : A) (l : list A) :
  1 <= n -> head l = Some x -> exists rest, Py.slice_to n l = x :: rest.
Proof.
  intros Hn Hhead. destruct l as [|y l]; [discriminate|].
  injection Hhead as ->. unfold Py.slice_to.
  destruct (Z.leb_spec 0 n); [|lia].
  replace (Z.to_nat n) with (S (Z.to_nat (n - 1))) by lia.
  eexists. reflexivity.
Qed.

Lemma build_record_fields (w : create_world) (user : string) (t : Transaction) :
  dict_get "risk_level" (build_record w user t) = Some (risk_level t) /\
  dict_get "high_risk" (build_record w user t) = Some (VBool (high_risk t)) /\
  dict_get "user" (build_record w user t) = Some (VStr user).
Proof. repeat split; reflexivity. Qed.

(** ** Risk fields of the created record *)

Section RiskFields.

Variable json_dumps : value -> option string.
Variable verify_oauth2_token : string -> option string -> option value.

Local Abbreviation resolve := (resolve_identity json_dumps verify_oauth2_token).
Local Abbreviation create := (create_transaction json_dumps verify_oauth2_token).

(** C1. When the risk service provides no recognised tier (it is
    unreachable, its reply is not JSON, or the reported value is none of
    HIGH, MEDIUM, LOW), a request that is authenticated and whose write does
    not raise returns a record whose [high_risk] is the comparison
    [amount >= HIGH_RISK_AMOUNT] (10000 when the variable is unset) and whose
    [risk_level] comes from the fixed bands: above 10000 HIGH, above 1000
    MEDIUM, else LOW.  With the default threshold the amount 10000 gives
    [high_risk = true] and [risk_level = MEDIUM].  The threshold is the
    configured one: when [HIGH_RISK_AMOUNT] is set to a text that [int()]
    reads as [n], [high_risk] is [amount >= n]; in particular a decimal
    numeral of at most 4300 digits configures its own value.  A text that
    [int()] refuses, like an unset variable, leaves the threshold at 10000. *)
Theorem fallback_heuristic_without_tier
    cfg w t x_user authorization st user :
  no_tier (risk_reply w) ->
  resolve cfg x_user authorization st = (Return user, st) ->
  save_raises cfg (put_reply w) = false ->
  exists record st',
    create cfg w t x_user authorization st = (Return record, st') /\
    dict_get "high_risk" record =
      Some (VBool (Py.float_ge_int (amount t) (HIGH_RISK_AMOUNT cfg))) /\
    dict_get "risk_level" record = Some (VStr (amount_tier (amount t))) /\
    (getenv cfg "HIGH_RISK_AMOUNT" = None -> HIGH_RISK_AMOUNT cfg = 10000) /\
    (forall q, amount t = FFin q ->
       (dict_get "high_risk" record = Some (VBool true) <->
          (inject_Z (HIGH_RISK_AMOUNT cfg) <= q)%Q) /\
       ((inject_Z 10000 < q)%Q ->
          dict_get "risk_level" record = Some (VStr "HIGH")) /\
       ((inject_Z 1000 < q)%Q -> (q <= inject_Z 10000)%Q ->
          dict_get "risk_level" record = Some (VStr "MEDIUM")) /\
       ((q <= inject_Z 1000)%Q ->
          dict_get "risk_level" record = Some (VStr "LOW"))) /\
    (forall q, amount t = FFin q -> (q == inject_Z 10000)%Q ->
       getenv cfg "HIGH_RISK_AMOUNT" = None ->
       dict_get "high_risk" record = Some (VBool true) /\
       dict_get "risk_level" record = Some (VStr "MEDIUM")) /\
    (forall s n,
       getenv cfg "HIGH_RISK_AMOUNT" = Some s -> Py.int_of_str s = Some n ->
       HIGH_RISK_AMOUNT cfg = n /\
       dict_get "high_risk" record
       = Some (VBool (Py.float_ge_int (amount t) n))) /\
    (forall ds,
       ds <> [] -> Forall (fun d => (d < 10)%nat) ds ->
       (length ds <= 4300)%nat ->
       getenv cfg "HIGH_RISK_AMOUNT" = Some (numeral ds) ->
       dict_get "high_risk" record
       = Some (VBool (Py.float_ge_int (amount t) (numeral_value ds)))) /\
    (forall s,
       getenv cfg "HIGH_RISK_AMOUNT" = Some s -> Py.int_of_str s = None ->
       dict_get "high_risk" record
       = Some (VBool (Py.float_ge_int (amount t) 10000))) /\
    (getenv cfg "HIGH_RISK_AMOUNT" = None ->
     dict_get "high_risk" record
     = Some (VBool (Py.float_ge_int (amount t) 10000))).
Proof.
  intros Hno Hid Hsave.
  pose proof (create_transaction_returns json_dumps verify_oauth2_token
                cfg w t x_user authorization st user Hid Hsave) as Hc.
  cbv zeta in Hc.
  set (t' := classify cfg (risk_reply w) t) in *.
  destruct (classify_no_tier cfg (risk_reply w) t Hno) as [Hlevel Hhigh].
  fold t' in Hlevel, Hhigh.
  destruct (build_record_fields w user t') as (Frl & Fhr & _).
  rewrite Hlevel in Frl. rewrite Hhigh in Fhr.
  eexists _, _. split; [exact Hc|].
  split; [exact Fhr|]. split; [exact Frl|].
  split; [apply default_threshold|].
  assert (Hconfigured :
    (forall s n,
       getenv cfg "HIGH_RISK_AMOUNT" = Some s -> Py.int_of_str s = Some n ->
       HIGH_RISK_AMOUNT cfg = n /\
       dict_get "high_risk" (build_record w user t')
       = Some (VBool (Py.float_ge_int (amount t) n))) /\
    (forall ds,
       ds <> [] -> Forall (fun d => (d < 10)%nat) ds ->
       (length ds <= 4300)%nat ->
       getenv cfg "HIGH_RISK_AMOUNT" = Some (numeral ds) ->
       dict_get "high_risk" (build_record w user t')
       = Some (VBool (Py.float_ge_int (amount t) (numeral_value ds)))) /\
    (forall s,
       getenv cfg "HIGH_RISK_AMOUNT" = Some s -> Py.int_of_str s = None ->
       dict_get "high_risk" (build_record w user t')
       = Some (VBool (Py.float_ge_int (amount t) 10000))) /\
    (getenv cfg "HIGH_RISK_AMOUNT" = None ->
     dict_get "high_risk" (build_record w user t')
     = Some (VBool (Py.float_ge_int (amount t) 10000)))).
  { rewrite Fhr. split; [|split; [|split]].
    - intros s n Henv Hint.
      now rewrite (threshold_configured cfg s n Henv Hint).
    - intros ds Hne Hds Hlen Henv.
      now rewrite (threshold_configured cfg (numeral ds) (numeral_value ds) Henv
                     (int_of_str_numeral ds Hne Hds Hlen)).
    - intros s Henv Hbad. now rewrite (threshold_unparsable cfg s Henv Hbad).
    - intros Hdef. now rewrite (default_threshold cfg Hdef). }
  split; [|split; [|exact Hconfigured]].
  - intros q Hq. rewrite Frl, Fhr, Hq.
    destruct (amount_tier_bands q) as (B1 & B2 & B3).
    repeat split.
    + intros E. apply float_ge_int_fin. now inversion E.
    + intros E. apply float_ge_int_fin in E. now rewrite E.
    + intros H. now rewrite B1.
    + intros H1 H2. now rewrite B2.
    + intros H. now rewrite B3.
  - intros q Hq Heq Hdef. rewrite Frl, Fhr, Hq, (default_threshold cfg Hdef).
    destruct (amount_tier_bands q) as (_ & B2 & _).
    split.
    + replace (Py.float_ge_int (FFin q) 10000) with true; [reflexivity|].
      symmetry. apply float_ge_int_fin. rewrite Heq. apply Qle_refl.
    + rewrite B2; [reflexivity | rewrite Heq; reflexivity | rewrite Heq; apply Qle_refl].
Qed.

(** C2. When the risk service reports one of HIGH, MEDIUM, LOW, a request
    that is authenticated and whose write does not raise returns a record
    whose [risk_level] is the reported tier and whose [high_risk] is true
    exactly for HIGH, whatever the amount. *)
Theorem reported_tier_used_as_is
    cfg w t x_user authorization st user tier :
  reports_tier (risk_reply w) tier ->
  resolve cfg x_user authorization st = (Return user, st) ->
  save_raises cfg (put_reply w) = false ->
  exists record st',
    create cfg w t x_user authorization st = (Return record, st') /\
    dict_get "risk_level" record = Some (VStr tier) /\
    dict_get "high_risk" record = Some (VBool (String.eqb tier "HIGH")) /\
    (tier = "HIGH" -> dict_get "high_risk" record = Some (VBool true)) /\
    (tier = "MEDIUM" \/ tier = "LOW" ->
       dict_get "high_risk" record = Some (VBool false)).
Proof.
  intros Hrep Hid Hsave.
  pose proof (create_transaction_returns json_dumps verify_oauth2_token
                cfg w t x_user authorization st user Hid Hsave) as Hc.
  cbv zeta in Hc.
  set (t' := classify cfg (risk_reply w) t) in *.
  destruct (classify_reported cfg (risk_reply w) t tier Hrep) as [Hlevel Hhigh].
  fold t' in Hlevel, Hhigh.
  destruct (build_record_fields w user t') as (Frl & Fhr & _).
  rewrite Hlevel in Frl. rewrite Hhigh in Fhr.
  eexists _, _. split; [exact Hc|].
  split; [exact Frl|]. split; [exact Fhr|].
  split; [intros -> | intros [-> | ->]]; exact Fhr.
Qed.

(** C3. The record a successful [create_transaction] returns carries a
    [risk_level] that is one of HIGH, MEDIUM, LOW, whatever the risk service
    answered; and that same record is what was persisted: it is the newest
    item written to the table, or the first entry of the in-memory store. *)
Theorem created_record_has_a_tier
    cfg w t x_user authorization st record st' :
  create cfg w t x_user authorization st = (Return record, st') ->
  (exists tier, In tier TIERS /\
     dict_get "risk_level" record = Some (VStr tier)) /\
  (if written_durably cfg (put_reply w)
   then head (dynamo_items st') = Some record
   else head (transactions_store st') = Some record).
Proof.
  intros Hc.
  apply create_transaction_inv in Hc as (user & Hid & Hsave & -> & ->).
  destruct (build_record_fields w user (classify cfg (risk_reply w) t))
    as (Frl & _ & _).
  split.
  - rewrite Frl.
    destruct (no_tier_or_reports (risk_reply w)) as [Hno | [tier Hrep]].
    + destruct (classify_no_tier cfg (risk_reply w) t Hno) as [-> _].
      exists (amount_tier (amount t)). split; [|reflexivity].
      unfold amount_tier, TIERS.
      destruct (Py.float_gt_int (amount t) 10000);
        [|destruct (Py.float_gt_int (amount t) 1000)]; simpl; auto.
    + destruct (classify_reported cfg (risk_reply w) t tier Hrep) as [-> _].
      exists tier. split; [apply Hrep | reflexivity].
  - rewrite save_transaction_record_cases, Hsave.
    destruct (written_durably cfg (put_reply w)); simpl;
      [reflexivity | apply store_insert_head].
Qed.

End RiskFields.

(** The amount 10000 with no risk service and the default threshold; the
    amounts 6000 and 4999 with the threshold configured as 5000. *)
Lemma fallback_heuristic_at_10000 :
  (exists record st',
     create_transaction Sample.dumps Sample.verify Sample.cfg_memory
       (Sample.world RiskUnreachable DynamoBotoError) (Sample.transaction 10000)
       (Some "alice") None initial_state = (Return record, st') /\
     dict_get "high_risk" record = Some (VBool true) /\
     dict_get "risk_level" record = Some (VStr "MEDIUM")) /\
  (exists record st',
     create_transaction Sample.dumps Sample.verify Demo.cfg_5000
       (Sample.world RiskUnreachable DynamoBotoError) (Sample.transaction 6000)
       (Some "alice") None initial_state = (Return record, st') /\
     dict_get "high_risk" record = Some (VBool true) /\
     dict_get "risk_level" record = Some (VStr "MEDIUM")) /\
  (exists record st',
     create_transaction Sample.dumps Sample.verify Demo.cfg_5000
       (Sample.world RiskUnreachable DynamoBotoError) (Sample.transaction 4999)
       (Some "alice") None initial_state = (Return record, st') /\
     dict_get "high_risk" record = Some (VBool false) /\
     dict_get "risk_level" record = Some (VStr "MEDIUM")).
Proof.
  split; [|split].
  - destruct (fallback_heuristic_without_tier Sample.dumps Sample.verify
                Sample.cfg_memory (Sample.world RiskUnreachable DynamoBotoError)
                (Sample.transaction 10000) (Some "alice") None initial_state
                "alice")
      as (record & st' & Hc & _ & _ & _ & _ & H10000 & _).
    + intros tier _. vm_compute. discriminate.
    + vm_compute. reflexivity.
    + vm_compute. reflexivity.
    + exists record, st'. split; [exact Hc|].
      apply (H10000 (inject_Z 10000)); vm_compute; reflexivity.
  - destruct (fallback_heuristic_without_tier Sample.dumps Sample.verify
                Demo.cfg_5000 (Sample.world RiskUnreachable DynamoBotoError)
                (Sample.transaction 6000) (Some "alice") None initial_state
                "alice")
      as (record & st' & Hc & _ & Hl & _ & _ & _ & _ & Hnum & _).
    + intros tier _. vm_compute. discriminate.
    + vm_compute. reflexivity.
    + vm_compute. reflexivity.
    + exists record, st'. split; [exact Hc|]. split; [|exact Hl].
      apply (Hnum [5; 0; 0; 0]%nat).
      * discriminate.
      * repeat constructor.
      * simpl. lia.
      * vm_compute. reflexivity.
  - destruct (fallback_heuristic_without_tier Sample.dumps Sample.verify
                Demo.cfg_5000 (Sample.world RiskUnreachable DynamoBotoError)
                (Sample.transaction 4999) (Some "alice") None initial_state
                "alice")
      as (record & st' & Hc & _ & Hl & _ & _ & _ & Hint & _).
    + intros tier _. vm_compute. discriminate.
    + vm_compute. reflexivity.
    + vm_compute. reflexivity.
    + exists record, st'. split; [exact Hc|]. split; [|exact Hl].
      apply (Hint "5000" 5000); vm_compute; reflexivity.
Defined.

(** The amount 500 with the risk service answering LOW. *)
Lemma reported_tier_low_at_500 :
  exists record st',
    create_transaction Sample.dumps Sample.verify Sample.cfg_memory
      (Sample.world (RiskJson (VDict [("risk_level", VStr "LOW")])) DynamoBotoError)
      (Sample.transaction 500) (Some "alice") None initial_state
    = (Return record, st') /\
    dict_get "risk_level" record = Some (VStr "LOW") /\
    dict_get "high_risk" record = Some (VBool false).
Proof.
  destruct (reported_tier_used_as_is Sample.dumps Sample.verify
              Sample.cfg_memory
              (Sample.world (RiskJson (VDict [("risk_level", VStr "LOW")]))
                 DynamoBotoError)
              (Sample.transaction 500) (Some "alice") None initial_state
              "alice" "LOW")
    as (record & st' & Hc & Hl & Hh & _).
  - split; [vm_compute; auto | vm_compute; reflexivity].
  - vm_compute. reflexivity.
  - vm_compute. reflexivity.
  - exists record, st'. auto.
Defined.

(** A record created while the risk service answers an unknown tier. *)
Lemma created_record_tier_sample :
  let record :=
    [ ("id", VStr "7f1c"); ("timestamp", VInt 1700000000);
      ("user", VStr "alice"); ("amount", VFloat (FFin (inject_Z 2500)));
      ("currency", VStr "USD"); ("merchant", VStr "ACME");
      ("risk_level", VStr "MEDIUM"); ("high_risk", VBool false) ] in
  (exists tier, In tier TIERS /\
     dict_get "risk_level" record = Some (VStr tier)) /\
  head (transactions_store (Sample.store_of [record])) = Some record.
Proof.
  exact (created_record_has_a_tier Sample.dumps Sample.verify
           Sample.cfg_memory
           (Sample.world (RiskJson (VDict [("risk_level", VStr "SEVERE")]))
              DynamoBotoError)
           (Sample.transaction 2500) (Some "alice") None initial_state
           _ _ eq_refl).
Defined.

(** ** The bounded in-memory store *)

Lemma store_insert_take (record : dict) (store : list dict) :
  (length store <= STORE_CAPACITY)%nat ->
  store_insert record store = take STORE_CAPACITY (record :: store).
Proof.
  intros Hlen. unfold store_insert.
  destruct (Nat.ltb_spec STORE_CAPACITY (length (record :: store))) as [Hgt | Hle].
  - rewrite removelast_firstn_len. f_equal. simpl length in *. lia.
  - symmetry. now apply take_ge.
Qed.

Lemma store_insert_length (record : dict) (store : list dict) :
  (length store <= STORE_CAPACITY)%nat ->
  (length (store_insert record store) <= STORE_CAPACITY)%nat.
Proof.
  intros Hlen. rewrite store_insert_take by exact Hlen.
  rewrite length_take. lia.
Qed.

Lemma take_app_take {A : Type} (n : nat) (a b : list A) :
  take n (a ++ take n b) = take n (a ++ b).
Proof.
  rewrite !take_app, take_take. do 2 f_equal. lia.
Qed.

Lemma save_store_length cfg put record st :
  (length (transactions_store st) <= STORE_CAPACITY)%nat ->
  (length (transactions_store (snd (save_transaction_record cfg put record st)))
   <= STORE_CAPACITY)%nat.
Proof.
  intros Hlen. rewrite save_transaction_record_cases.
  destruct (save_raises cfg put); [exact Hlen|].
  destruct (written_durably cfg put); [exact Hlen|].
  now apply store_insert_length.
Qed.

Lemma run_saves_length cfg calls : forall st,
  (length (transactions_store st) <= STORE_CAPACITY)%nat ->
  (length (transactions_store (run_saves cfg calls st)) <= STORE_CAPACITY)%nat.
Proof.
  induction calls as [|call calls IH]; intros st Hlen; [exact Hlen|].
  apply IH. now apply save_store_length.
Qed.

Lemma run_saves_memory cfg calls :
  durable_enabled cfg = false -> forall st,
  (length (transactions_store st) <= STORE_CAPACITY)%nat ->
  transactions_store (run_saves cfg calls st) =
  take STORE_CAPACITY (rev (map fst calls) ++ transactions_store st).
Proof.
  intros Hmem. induction calls as [|[record put] calls IH]; intros st Hlen.
  - simpl. symmetry. now apply take_ge.
  - change (run_saves cfg ((record, put) :: calls) st)
      with (run_saves cfg calls (snd (save_transaction_record cfg put record st))).
    rewrite IH by now apply save_store_length.
    rewrite save_transaction_record_cases.
    unfold save_raises, written_durably. rewrite Hmem. cbn [andb snd transactions_store].
    rewrite store_insert_take by exact Hlen.
    rewrite take_app_take. cbn [map fst rev]. now rewrite <- app_assoc.
Qed.

Lemma run_saves_memory_initial cfg calls :
  durable_enabled cfg = false ->
  transactions_store (run_saves cfg calls initial_state) =
  take STORE_CAPACITY (rev (map fst calls)).
Proof.
  intros Hmem. rewrite (run_saves_memory cfg calls Hmem initial_state).
  - simpl transactions_store. now rewrite app_nil_r.
  - simpl. lia.
Qed.

(** C4. After any sequence of inserts, started on the empty store, the
    in-memory store holds at most 200 records.  When the memory backend is
    in use the store is the 200 most recent records, newest first: each
    insert puts the record in front and, once the length would exceed 200,
    drops the last (oldest) entry. *)
Theorem memory_store_bounded (cfg : config)
    (calls : list (dict * dynamo_reply unit)) :
  let st := run_saves cfg calls initial_state in
  (length (transactions_store st) <= 200)%nat /\
  (durable_enabled cfg = false ->
     transactions_store st = take 200 (rev (map fst calls))) /\
  (forall record store, (length store <= 200)%nat ->
     store_insert record store = take 200 (record :: store) /\
     (length store < 200 -> store_insert record store = record :: store)%nat /\
     (length store = 200 ->
        store_insert record store = record :: removelast store)%nat).
Proof.
  cbv zeta. change 200%nat with STORE_CAPACITY. repeat split.
  - apply run_saves_length. simpl. lia.
  - now apply run_saves_memory_initial.
  - now apply store_insert_take.
  - intros Hlt. rewrite store_insert_take by assumption.
    apply take_ge. simpl. lia.
  - intros Heq. unfold store_insert.
    destruct (Nat.ltb_spec STORE_CAPACITY (length (record :: store))) as [_ | Hle].
    + destruct store; [discriminate Heq | reflexivity].
    + simpl in Hle. lia.
Qed.

(** 201 inserts into the memory backend: the first record is gone. *)
Lemma memory_store_after_201_inserts :
  let st := run_saves Sample.cfg_memory (Sample.inserts 201) initial_state in
  length (transactions_store st) = 200%nat /\
  head (transactions_store st) = Some (Sample.record_of "tx" "alice" 200) /\
  last (transactions_store st) = Some (Sample.record_of "tx" "alice" 1).
Proof.
  destruct (memory_store_bounded Sample.cfg_memory (Sample.inserts 201))
    as (_ & Hmem & _).
  cbv zeta. rewrite Hmem by (vm_compute; reflexivity).
  vm_compute. repeat split; reflexivity.
Defined.

(** ** Identity resolution *)

Lemma bearer_is_bearer (token : string) :
  is_bearer (Some ("Bearer " +:+ token)) = true /\
  snd (Py.split1 " " ("Bearer " +:+ token)) = Some token.
Proof. split; reflexivity. Qed.

Lemma is_bearer_inv (authorization : option string) :
  is_bearer authorization = true ->
  exists token, authorization = Some ("Bearer " +:+ token).
Proof.
  destruct authorization as [a|]; [|discriminate]. simpl.
  intros H. apply andb_true_iff in H as [_ H].
  do 7 (destruct a as [|[[] [] [] [] [] [] [] []] a]; try discriminate H).
  exists a. reflexivity.
Qed.

Section Identity.

Variable json_dumps : value -> option string.
Variable verify_oauth2_token : string -> option string -> option value.

Local Abbreviation create := (create_transaction json_dumps verify_oauth2_token).

Lemma create_transaction_bearer cfg w t x_user st token :
  create cfg w t x_user (Some ("Bearer " +:+ token)) st =
  match token_identity json_dumps verify_oauth2_token cfg token with
  | Some user =>
      if Py.str_truthy user then
        let record := build_record w user (classify cfg (risk_reply w) t) in
        match save_transaction_record cfg (put_reply w) record st with
        | (Return _, st') => (Return record, st')
        | (HTTPException c d, st') => (HTTPException c d, st')
        | (Uncaught, st') => (Uncaught, st')
        end
      else (HTTPException 401 MISSING_AUTH, st)
  | None => (HTTPException 401 INVALID_TOKEN, st)
  end.
Proof.
  unfold create_transaction, resolve_identity, user_header_of.
  destruct (bearer_is_bearer token) as [-> ->].
  unfold mbind, handler_bind, mret, handler_ret, raise.
  destruct (token_identity json_dumps verify_oauth2_token cfg token) as [user|];
    [|reflexivity].
  destruct (Py.str_truthy user); [|reflexivity].
  destruct (save_transaction_record _ _ _ st) as [[b|c d|] st']; reflexivity.
Qed.

(** C5. A Bearer authorization value takes precedence over the X-User
    header: with it the outcome of [create_transaction] does not depend on
    X-User at all, and when the verification of the token fails the request
    ends with 401 [Invalid Google ID token], X-User or not.  With neither a
    Bearer value nor an X-User header the request ends with 401
    [Missing authentication...].  In both failures the state is left as it
    was: nothing is created or stored.  (Every value the handler treats as
    a Bearer value is [Bearer ] followed by a token, see [is_bearer_inv].) *)
Theorem bearer_takes_precedence cfg w t x_user st token :
  (forall x_user',
     create cfg w t x_user' (Some ("Bearer " +:+ token)) st =
     create cfg w t x_user (Some ("Bearer " +:+ token)) st) /\
  (verify_oauth2_token token (expected_audience cfg) = None ->
     create cfg w t x_user (Some ("Bearer " +:+ token)) st =
     (HTTPException 401 INVALID_TOKEN, st)) /\
  (forall authorization,
     is_bearer authorization = false -> Py.opt_truthy x_user = false ->
     create cfg w t x_user authorization st =
     (HTTPException 401 MISSING_AUTH, st)).
Proof.
  split; [|split].
  - intros x_user'.
    rewrite (create_transaction_bearer cfg w t x_user'),
            (create_transaction_bearer cfg w t x_user).
    reflexivity.
  - intros Hfail. rewrite create_transaction_bearer.
    unfold token_identity. now rewrite Hfail.
  - intros authorization Hnb Hnx.
    unfold create_transaction, resolve_identity, user_header_of.
    rewrite Hnb, Hnx. reflexivity.
Qed.

End Identity.

(** A rejected token next to an X-User header, and a request with neither. *)
Lemma bearer_precedence_sample :
  create_transaction Sample.dumps Sample.verify Sample.cfg_memory
    (Sample.world RiskUnreachable DynamoBotoError) (Sample.transaction 50)
    (Some "alice") (Some "Bearer expired-token") initial_state
  = (HTTPException 401 INVALID_TOKEN, initial_state) /\
  create_transaction Sample.dumps Sample.verify Sample.cfg_memory
    (Sample.world RiskUnreachable DynamoBotoError) (Sample.transaction 50)
    None None initial_state
  = (HTTPException 401 MISSING_AUTH, initial_state).
Proof.
  split.
  - apply (bearer_takes_precedence Sample.dumps Sample.verify Sample.cfg_memory
             (Sample.world RiskUnreachable DynamoBotoError)
             (Sample.transaction 50) (Some "alice") initial_state
             "expired-token").
    vm_compute. reflexivity.
  - apply (bearer_takes_precedence Sample.dumps Sample.verify Sample.cfg_memory
             (Sample.world RiskUnreachable DynamoBotoError)
             (Sample.transaction 50) None initial_state "expired-token");
      vm_compute; reflexivity.
Defined.

Example bearer_accepted_ignores_x_user :
  fst (create_transaction Sample.dumps Sample.verify Sample.cfg_memory
         (Sample.world RiskUnreachable DynamoBotoError) (Sample.transaction 50)
         (Some "mallory") (Some "Bearer alice-token") initial_state)
  = Return [ ("id", VStr "7f1c"); ("timestamp", VInt 1700000000);
             ("user", VStr Sample.alice_json);
             ("amount", VFloat (FFin (inject_Z 50)));
             ("currency", VStr "USD"); ("merchant", VStr "ACME");
             ("risk_level", VStr "LOW"); ("high_risk", VBool false) ].
Proof. vm_compute. reflexivity. Qed.

(** ** The clear guard *)

Lemma table_configured_iff (cfg : config) :
  Py.opt_truthy (getenv cfg "DDB_TABLE") = true <-> table_configured cfg.
Proof.
  unfold table_configured. destruct (getenv cfg "DDB_TABLE") as [name|]; simpl.
  - unfold Py.str_truthy. rewrite negb_true_iff, String.eqb_neq.
    split; [intros H; exists name; auto | intros (n & E & H); congruence].
  - split; [discriminate | intros (n & E & _); discriminate].
Qed.

Lemma allow_clear_iff (cfg : config) :
  allow_clear cfg = true <-> operator_override cfg.
Proof.
  unfold allow_clear, operator_override, getenv_default, getenv.
  destruct (environ cfg !! "ALLOW_CLEAR") as [v|].
  - rewrite existsb_exists. split.
    + intros (x & Hin & E). apply String.eqb_eq in E. subst x. eauto.
    + intros (v' & E & Hin). inversion E; subst v'.
      exists (Py.lower v). split; [exact Hin | apply String.eqb_refl].
  - split; [discriminate | intros (v & E & _); discriminate].
Qed.

Lemma clear_refused (cfg : config) (st : state) :
  table_configured cfg -> ~ operator_override cfg ->
  clear_transactions cfg st = (HTTPException 403 CLEAR_DISABLED, st).
Proof.
  rewrite <- table_configured_iff, <- allow_clear_iff. intros Ht Ho.
  unfold clear_transactions. rewrite Ht.
  destruct (allow_clear cfg); [now destruct Ho | reflexivity].
Qed.

(** C6. With a table name configured and the override not set,
    [clear_transactions] ends with 403 and the in-memory store is as it was;
    in every other case it empties the in-memory store and returns. *)
Theorem clear_guard (cfg : config) (st : state) :
  (table_configured cfg -> ~ operator_override cfg ->
     clear_transactions cfg st = (HTTPException 403 CLEAR_DISABLED, st)) /\
  (~ table_configured cfg \/ operator_override cfg ->
     clear_transactions cfg st =
     (Return tt, {| transactions_store := []; dynamo_items := dynamo_items st |})).
Proof.
  split; [apply clear_refused|].
  rewrite <- table_configured_iff, <- allow_clear_iff. unfold clear_transactions.
  destruct (Py.opt_truthy (getenv cfg "DDB_TABLE")), (allow_clear cfg);
    simpl; intros [H | H]; congruence.
Qed.

Lemma clear_guard_samples :
  let st := Sample.store_of [Sample.record_of "tx" "alice" 1] in
  clear_transactions Sample.cfg_durable st = (HTTPException 403 CLEAR_DISABLED, st) /\
  clear_transactions Sample.cfg_durable_override st = (Return tt, initial_state) /\
  clear_transactions Sample.cfg_memory st = (Return tt, initial_state).
Proof.
  cbv zeta. split; [|split].
  - apply clear_guard.
    + exists "transactions". split; [vm_compute; reflexivity | discriminate].
    + intros (v & E & _). vm_compute in E. discriminate.
  - apply (clear_guard Sample.cfg_durable_override). right.
    exists "Yes". split; [vm_compute; reflexivity | vm_compute; auto].
  - apply (clear_guard Sample.cfg_memory). left.
    intros (name & E & _). vm_compute in E. discriminate.
Defined.

(** ** Persistence and its fallback *)

Section Persistence.

Variable json_loads : string -> option value.
Variable json_dumps : value -> option string.
Variable verify_oauth2_token : string -> option string -> option value.

Local Abbreviation resolve := (resolve_identity json_dumps verify_oauth2_token).
Local Abbreviation create := (create_transaction json_dumps verify_oauth2_token).

(** C8 (amended). [save_transaction_record] returns true exactly when the
    record was written to the table.  When no durable backend is in use
    (the client library is missing or no table name is set), or when the
    write raises [BotoCoreError] or [ClientError], the record is put in
    front of the in-memory store and the function returns false; an
    authenticated [create_transaction] then returns the record all the
    same. *)
Theorem save_falls_back_on_boto_errors
    (cfg : config) (put : dynamo_reply unit) (record : dict) (st : state) :
  (fst (save_transaction_record cfg put record st) = Return true <->
     written_durably cfg put = true) /\
  (written_durably cfg put = true ->
     save_transaction_record cfg put record st =
     (Return true,
      {| transactions_store := transactions_store st;
         dynamo_items := record :: dynamo_items st |})) /\
  (durable_enabled cfg = false \/ put = DynamoBotoError ->
     let st' := {| transactions_store := store_insert record (transactions_store st);
                   dynamo_items := dynamo_items st |} in
     save_transaction_record cfg put record st = (Return false, st') /\
     head (transactions_store st') = Some record /\
     forall w t x_user authorization user,
       put_reply w = put ->
       resolve cfg x_user authorization st = (Return user, st) ->
       exists created st'',
         create cfg w t x_user authorization st = (Return created, st'') /\
         head (transactions_store st'') = Some created).
Proof.
  rewrite save_transaction_record_cases.
  unfold save_raises, written_durably.
  split; [|split].
  - destruct (durable_enabled cfg), put; simpl; split; congruence.
  - destruct (durable_enabled cfg), put; simpl; congruence.
  - intros Hfb. cbv zeta.
    assert (Hs : save_raises cfg put = false /\ written_durably cfg put = false).
    { unfold save_raises, written_durably.
      destruct Hfb as [-> | ->]; [auto | destruct (durable_enabled cfg); auto]. }
    destruct Hs as [Hs Hw]. unfold save_raises, written_durably in Hs, Hw.
    rewrite Hs, Hw. split; [reflexivity|]. split; [apply store_insert_head|].
    intros w t x_user authorization user Hput Hid.
    pose proof (create_transaction_returns json_dumps verify_oauth2_token
                  cfg w t x_user authorization st user Hid) as Hc.
    rewrite Hput in Hc. specialize (Hc Hs). cbv zeta in Hc.
    eexists _, _. split; [exact Hc|].
    rewrite save_transaction_record_cases.
    unfold save_raises, written_durably. rewrite Hs, Hw.
    apply store_insert_head.
Qed.

(** C10. With a table name set but the client library missing, and the
    override not set: an authenticated [create_transaction] stores its record
    in the in-memory store, [list_transactions] reads the in-memory store,
    and [clear_transactions] still ends with 403 and leaves the store as it
    is.  In the state a create leaves behind, the new record is the first
    entry of the in-memory store, an unfiltered listing with a limit of at
    least 1 returns it first, and the clear is refused with the record still
    in the store. *)
Theorem clear_guard_ignores_missing_client (cfg : config) :
  boto3 cfg = false -> table_configured cfg -> ~ operator_override cfg ->
  (forall w t x_user authorization st user,
     resolve cfg x_user authorization st = (Return user, st) ->
     let record := build_record w user (classify cfg (risk_reply w) t) in
     let st' :=
       {| transactions_store := store_insert record (transactions_store st);
          dynamo_items := dynamo_items st |} in
     create cfg w t x_user authorization st = (Return record, st') /\
     head (transactions_store st') = Some record /\
     In record (transactions_store st') /\
     (forall scan limit,
        1 <= limit ->
        exists rest,
          list_transactions json_loads cfg scan limit None st'
          = (Return (record :: rest), st')) /\
     (exists refused,
        clear_transactions cfg st' = (HTTPException 403 CLEAR_DISABLED, refused) /\
        In record (transactions_store refused))) /\
  (forall scan limit x_user st,
     list_transactions json_loads cfg scan limit x_user st =
     (Return (filter_items json_loads x_user limit
                (Py.slice_to limit (transactions_store st))), st)) /\
  (forall st,
     clear_transactions cfg st = (HTTPException 403 CLEAR_DISABLED, st)).
Proof.
  intros Hboto Htable Hover.
  assert (Hmem : durable_enabled cfg = false)
    by (unfold durable_enabled; now rewrite Hboto).
  assert (Hlist : forall scan limit x_user st,
     list_transactions json_loads cfg scan limit x_user st =
     (Return (filter_items json_loads x_user limit
                (Py.slice_to limit (transactions_store st))), st)).
  { intros scan limit x_user st.
    unfold list_transactions, scan_items, mbind, handler_bind.
    now rewrite Hmem. }
  split; [|split].
  - intros w t x_user authorization st user Hid record st'.
    pose proof (store_insert_head record (transactions_store st)) as Hhead.
    split; [|split; [|split; [|split]]].
    + rewrite (create_transaction_returns json_dumps verify_oauth2_token
                 cfg w t x_user authorization st user Hid)
        by (unfold save_raises; now rewrite Hmem).
      fold record. rewrite save_transaction_record_cases.
      unfold save_raises, written_durably. now rewrite Hmem.
    + exact Hhead.
    + apply head_In. exact Hhead.
    + intros scan limit Hlimit. rewrite Hlist.
      destruct (slice_to_head limit record (transactions_store st') Hlimit Hhead)
        as [rest ->].
      exists rest. reflexivity.
    + exists st'. split; [now apply clear_refused | apply head_In; exact Hhead].
  - exact Hlist.
  - intros st. now apply clear_refused.
Qed.

End Persistence.

(** A write that raises an exception outside the two caught families: the
    record is neither written nor kept in memory, and the request fails. *)
Lemma save_uncaught_write_error :
  let record := Sample.record_of "tx" "alice" 1 in
  written_durably Sample.cfg_durable DynamoOtherError = false /\
  save_transaction_record Sample.cfg_durable DynamoOtherError record initial_state
  = (Uncaught, initial_state) /\
  fst (save_transaction_record Sample.cfg_durable DynamoOtherError record
         initial_state) <> Return false /\
  create_transaction Sample.dumps Sample.verify Sample.cfg_durable
    (Sample.world RiskUnreachable DynamoOtherError) (Sample.transaction 50)
    (Some "alice") None initial_state
  = (Uncaught, initial_state).
Proof. vm_compute. repeat split; try reflexivity. discriminate. Qed.

(** A write that raises [ClientError], with and without a durable backend. *)
Lemma save_fallback_samples :
  let record := Sample.record_of "tx" "alice" 1 in
  save_transaction_record Sample.cfg_durable DynamoBotoError record initial_state
  = (Return false, Sample.store_of [record]) /\
  save_transaction_record Sample.cfg_durable (DynamoOk tt) record initial_state
  = (Return true, {| transactions_store := []; dynamo_items := [record] |}).
Proof.
  cbv zeta. split.
  - apply (save_falls_back_on_boto_errors Sample.dumps Sample.verify).
    right. reflexivity.
  - apply (save_falls_back_on_boto_errors Sample.dumps Sample.verify
             Sample.cfg_durable (DynamoOk tt)).
    vm_compute. reflexivity.
Defined.

(** A table name without the client library: the record lands in memory,
    and the clear is refused. *)
Lemma missing_client_sample :
  (exists record st',
     create_transaction Sample.dumps Sample.verify Sample.cfg_no_boto
       (Sample.world RiskUnreachable DynamoOtherError) (Sample.transaction 50)
       (Some "alice") None initial_state = (Return record, st') /\
     transactions_store st' = [record] /\
     dynamo_items st' = [] /\
     list_transactions Sample.loads Sample.cfg_no_boto DynamoOtherError 20 None st'
     = (Return [record], st') /\
     clear_transactions Sample.cfg_no_boto st'
     = (HTTPException 403 CLEAR_DISABLED, st')) /\
  (let st := Sample.store_of [Sample.record_of "tx" "alice" 1] in
   list_transactions Sample.loads Sample.cfg_no_boto DynamoOtherError 20 None st
   = (Return [Sample.record_of "tx" "alice" 1], st) /\
   clear_transactions Sample.cfg_no_boto st
   = (HTTPException 403 CLEAR_DISABLED, st)).
Proof.
  cbv zeta.
  destruct (clear_guard_ignores_missing_client Sample.loads Sample.dumps
              Sample.verify Sample.cfg_no_boto) as (Hcreate & Hlist & Hclear).
  - reflexivity.
  - exists "transactions". split; [vm_compute; reflexivity | discriminate].
  - intros (v & E & _). vm_compute in E. discriminate.
  - split.
    + destruct (Hcreate (Sample.world RiskUnreachable DynamoOtherError)
                  (Sample.transaction 50) (Some "alice") None initial_state
                  "alice" eq_refl) as (Hc & _ & _ & _ & _).
      eexists _, _. split; [exact Hc|].
      split; [reflexivity|]. split; [reflexivity|].
      split; [rewrite Hlist; vm_compute; reflexivity | apply Hclear].
    + split; [rewrite Hlist; vm_compute; reflexivity | apply Hclear].
Defined.

(** ** Scanning *)

Lemma insert_desc_perm k x l : Permutation (insert_desc k x l) ((k, x) :: l).
Proof.
  induction l as [|[k' y] l IH]; simpl; [reflexivity|].
  destruct (k <? k'); [|reflexivity].
  rewrite IH. apply perm_swap.
Qed.

Lemma sort_desc_perm l : Permutation (sort_desc l) l.
Proof.
  induction l as [|[k x] l IH]; simpl; [reflexivity|].
  rewrite insert_desc_perm. now constructor.
Qed.

Lemma insert_desc_sorted k x l :
  StronglySorted keys_desc l -> StronglySorted keys_desc (insert_desc k x l).
Proof.
  induction 1 as [|[k' y] l Hs IH Hall]; simpl.
  - repeat constructor.
  - destruct (Z.ltb_spec k k') as [Hlt | Hge].
    + constructor; [exact IH|].
      rewrite insert_desc_perm. constructor; [unfold keys_desc; simpl; lia | exact Hall].
    + constructor; [now constructor|].
      constructor; [unfold keys_desc; simpl; lia|].
      eapply Forall_impl; [exact Hall|].
      intros [k'' z]. unfold keys_desc. simpl. lia.
Qed.

Lemma sort_desc_sorted l : StronglySorted keys_desc (sort_desc l).
Proof.
  induction l as [|[k x] l IH]; simpl; [constructor|].
  now apply insert_desc_sorted.
Qed.

Lemma with_keys_spec items keyed :
  with_keys items = Some keyed ->
  map snd keyed = items /\ Forall keyed_ok keyed.
Proof.
  revert keyed. induction items as [|x items IH]; simpl; intros keyed E.
  - inversion E. split; constructor.
  - destruct (timestamp_key x) as [k|] eqn:Ek; [|discriminate].
    destruct (with_keys items) as [rest|]; [|discriminate].
    inversion E; subst keyed. destruct (IH rest eq_refl) as [Hm Hf].
    split; [simpl; now rewrite Hm | constructor; [exact Ek | exact Hf]].
Qed.

Lemma with_keys_total items :
  Forall (fun x => is_Some (timestamp_key x)) items ->
  exists keyed, with_keys items = Some keyed.
Proof.
  induction 1 as [|x items [k Hk] _ [rest IH]]; simpl; [eauto|].
  rewrite Hk, IH. eauto.
Qed.

Lemma sorted_map_keys (l : list (Z * dict)) :
  StronglySorted keys_desc l -> Forall keyed_ok l ->
  StronglySorted key_ge (map snd l).
Proof.
  induction 1 as [|a l Hs IH Hall]; intros Hok; simpl; [constructor|].
  inversion Hok as [|? ? Ha Hl]; subst.
  constructor; [now apply IH|].
  apply Forall_map. rewrite Forall_forall in Hall, Hl |- *.
  intros b Hb. exists (fst a), (fst b).
  split; [exact Ha|]. split; [now apply Hl | now apply Hall].
Qed.

(** What [sorted(items, key=..., reverse=True)] returns: a rearrangement of
    the items, keys in descending order.  It returns when every key can be
    computed. *)
Lemma sorted_by_timestamp_spec items sorted :
  sorted_by_timestamp items = Some sorted ->
  Permutation items sorted /\ StronglySorted key_ge sorted.
Proof.
  unfold sorted_by_timestamp.
  destruct (with_keys items) as [keyed|] eqn:Hk; [|discriminate].
  intros E. inversion E; subst sorted.
  destruct (with_keys_spec items keyed Hk) as [Hm Hok]. split.
  - rewrite <- Hm. apply Permutation_map. symmetry. apply sort_desc_perm.
  - apply sorted_map_keys; [apply sort_desc_sorted|].
    rewrite (sort_desc_perm keyed). exact Hok.
Qed.

Lemma sorted_by_timestamp_total items :
  Forall (fun x => is_Some (timestamp_key x)) items ->
  exists sorted, sorted_by_timestamp items = Some sorted.
Proof.
  intros Hall. destruct (with_keys_total items Hall) as [keyed Hk].
  unfold sorted_by_timestamp. rewrite Hk. eauto.
Qed.

Lemma slice_to_nonneg {A : Type} (n : Z) (l : list A) :
  0 <= n -> Py.slice_to n l = take (Z.to_nat n) l.
Proof.
  intros H. unfold Py.slice_to.
  destruct (Z.leb_spec 0 n); [reflexivity | lia].
Qed.

Lemma slice_to_length {A : Type} (n : Z) (l : list A) :
  0 <= n -> Z.of_nat (length (Py.slice_to n l)) <= n.
Proof.
  intros H. rewrite slice_to_nonneg by exact H. rewrite length_take. lia.
Qed.

Lemma slice_to_short {A : Type} (n : Z) (l : list A) :
  Z.of_nat (length l) <= n -> Py.slice_to n l = l.
Proof.
  intros H. rewrite slice_to_nonneg by lia. apply take_ge. lia.
Qed.

Lemma scan_items_state cfg scan limit st :
  snd (scan_items cfg scan limit st) = st.
Proof.
  unfold scan_items.
  destruct (durable_enabled cfg); [|reflexivity].
  destruct scan as [items| |]; try reflexivity.
  destruct (sorted_by_timestamp items); reflexivity.
Qed.

Lemma scan_items_length cfg scan limit st items st' :
  0 <= limit ->
  scan_items cfg scan limit st = (Return items, st') ->
  Z.of_nat (length items) <= limit.
Proof.
  intros Hl. unfold scan_items.
  destruct (durable_enabled cfg);
    [destruct scan as [retrieved| |];
     [destruct (sorted_by_timestamp retrieved)| |]|];
    intros E; inversion E; subst; now apply slice_to_length.
Qed.

(** C9 (amended). For a limit that is not negative, the scan of
    [list_transactions] returns at most [limit] records.  With the durable
    backend what it returns is the retrieved items sorted by timestamp,
    largest first, and cut to [limit]; when the read raises [BotoCoreError]
    or [ClientError] it is the first [limit] entries of the in-memory store
    instead.  With the memory backend it is the first [limit] entries of the
    store, which after a run of inserts are the most recent records, newest
    first. *)
Theorem scan_returns_most_recent
    (cfg : config) (scan : dynamo_reply (list dict)) (limit : Z) (st : state) :
  0 <= limit ->
  (forall items st',
     scan_items cfg scan limit st = (Return items, st') ->
     Z.of_nat (length items) <= limit /\ st' = st /\
     forall retrieved,
       durable_enabled cfg = true -> scan = DynamoOk retrieved ->
       exists sorted,
         Permutation retrieved sorted /\ StronglySorted key_ge sorted /\
         items = take (Z.to_nat limit) sorted) /\
  (forall retrieved,
     durable_enabled cfg = true -> scan = DynamoOk retrieved ->
     Forall (fun x => is_Some (timestamp_key x)) retrieved ->
     exists items, scan_items cfg scan limit st = (Return items, st)) /\
  (durable_enabled cfg = true -> scan = DynamoBotoError ->
     scan_items cfg scan limit st =
     (Return (take (Z.to_nat limit) (transactions_store st)), st)) /\
  (durable_enabled cfg = false ->
     scan_items cfg scan limit st =
     (Return (take (Z.to_nat limit) (transactions_store st)), st) /\
     forall calls,
       fst (scan_items cfg scan limit (run_saves cfg calls initial_state)) =
       Return (take (Z.to_nat limit) (take 200 (rev (map fst calls))))).
Proof.
  intros Hl. split; [|split; [|split]].
  - intros items st' E. split; [eapply scan_items_length; eauto|]. split.
    + pose proof (scan_items_state cfg scan limit st) as Hst.
      rewrite E in Hst. exact Hst.
    + intros retrieved Hd ->. unfold scan_items in E. rewrite Hd in E.
      destruct (sorted_by_timestamp retrieved) as [sorted|] eqn:Hs;
        [|discriminate].
      destruct (sorted_by_timestamp_spec retrieved sorted Hs) as [Hp Hsorted].
      exists sorted. split; [exact Hp|]. split; [exact Hsorted|].
      rewrite slice_to_nonneg in E by exact Hl. now inversion E.
  - intros retrieved Hd -> Hall.
    destruct (sorted_by_timestamp_total retrieved Hall) as (sorted & Hs).
    unfold scan_items. rewrite Hd, Hs. eauto.
  - intros Hd ->. unfold scan_items.
    rewrite Hd, slice_to_nonneg by exact Hl. reflexivity.
  - intros Hm. unfold scan_items. rewrite Hm. split.
    + rewrite slice_to_nonneg by exact Hl. reflexivity.
    + intros calls. cbn [fst].
      rewrite slice_to_nonneg by exact Hl.
      now rewrite (run_saves_memory_initial cfg calls Hm).
Qed.

(** A negative limit: the scan of a three-record store returns two records,
    more than [limit] and not the first [limit] entries.  And a read that
    raises an exception outside the two caught families: the scan raises,
    the in-memory store is not consulted. *)
Lemma scan_negative_limit :
  let st := Sample.store_of [ Sample.record_of "tx" "alice" 3;
                              Sample.record_of "tx" "alice" 2;
                              Sample.record_of "tx" "alice" 1 ] in
  (scan_items Sample.cfg_memory DynamoBotoError (-1) st
   = (Return [ Sample.record_of "tx" "alice" 3; Sample.record_of "tx" "alice" 2 ], st) /\
   ~ (forall items st',
        scan_items Sample.cfg_memory DynamoBotoError (-1) st = (Return items, st') ->
        Z.of_nat (length items) <= -1)) /\
  scan_items Sample.cfg_durable DynamoOtherError 2 st = (Uncaught, st).
Proof.
  cbv zeta. split; [split|]; try (vm_compute; reflexivity).
  intros H. specialize (H _ _ eq_refl). vm_compute in H. now apply H.
Qed.

(** A scan with limit 2: the two newest of three inserted records, and the
    items of a table read sorted by timestamp. *)
Lemma scan_limit_two :
  fst (scan_items Sample.cfg_memory DynamoBotoError 2
         (run_saves Sample.cfg_memory (Sample.inserts 3) initial_state))
  = Return [ Sample.record_of "tx" "alice" 2; Sample.record_of "tx" "alice" 1 ] /\
  exists items,
    scan_items Sample.cfg_durable
      (DynamoOk [ Sample.record_of "a" "alice" 5; Sample.record_of "b" "bob" 9;
                  Sample.record_of "c" "alice" 7 ]) 2 initial_state
    = (Return items, initial_state).
Proof.
  split.
  - destruct (scan_returns_most_recent Sample.cfg_memory DynamoBotoError 2
                initial_state) as (_ & _ & _ & Hmem); [lia|].
    destruct Hmem as [_ Hruns]; [vm_compute; reflexivity|].
    rewrite Hruns. vm_compute. reflexivity.
  - destruct (scan_returns_most_recent Sample.cfg_durable
                (DynamoOk [ Sample.record_of "a" "alice" 5;
                            Sample.record_of "b" "bob" 9;
                            Sample.record_of "c" "alice" 7 ]) 2 initial_state)
      as (_ & Hdur & _); [lia|].
    eapply Hdur; [vm_compute; reflexivity | reflexivity |].
    repeat constructor; vm_compute; eauto.
Defined.

Example scan_durable_sorted :
  scan_items Sample.cfg_durable
    (DynamoOk [ Sample.record_of "a" "alice" 5; Sample.record_of "b" "bob" 9;
                Sample.record_of "c" "alice" 7; Sample.record_of "d" "bob" 9 ])
    3 initial_state
  = (Return [ Sample.record_of "b" "bob" 9; Sample.record_of "d" "bob" 9;
              Sample.record_of "c" "alice" 7 ], initial_state).
Proof. vm_compute. reflexivity. Qed.

(** ** Filtering by identity *)

Section Filtering.

Variable json_loads : string -> option value.

Local Abbreviation matches := (identity_matches json_loads).

Lemma filter_step_matches (x_user : string) (filtered : list dict) (it : dict) :
  filter_step json_loads x_user (extract_email json_loads x_user) filtered it =
  if matches x_user it then (filtered ++ [it])%list else filtered.
Proof.
  unfold filter_step, identity_matches.
  destruct (py_get "user" it) as [| b | z | f | u | l | d] eqn:Eu.
  all: cbn [Py.truthy negb].
  5: { cbn [Py.eq].
       destruct (String.eqb u "") eqn:Ee; [reflexivity|]. cbn [negb andb].
       destruct (String.eqb u x_user); reflexivity. }
  all: try (replace (Py.eq _ (VStr x_user)) with false
              by (symmetry; apply py_eq_str_false; discriminate)).
  all: rewrite ?andb_false_r; cbn [andb].
  all: match goal with
       | |- (if ?c then _ else _) = _ => destruct c; reflexivity
       | |- _ => reflexivity
       end.
Qed.

Lemma filter_loop (x_user : string) (items : list dict) : forall filtered,
  fold_left (filter_step json_loads x_user (extract_email json_loads x_user))
            items filtered
  = (filtered ++ List.filter (matches x_user) items)%list.
Proof.
  induction items as [|it items IH]; intros filtered; simpl.
  - now rewrite app_nil_r.
  - rewrite IH, filter_step_matches.
    destruct (matches x_user it); [now rewrite <- app_assoc | reflexivity].
Qed.

Lemma filter_length (x_user : string) (items : list dict) :
  (length (List.filter (matches x_user) items) <= length items)%nat.
Proof.
  induction items as [|it items IH]; simpl; [lia|].
  destruct (matches x_user it); simpl; lia.
Qed.

Lemma list_transactions_no_filter cfg scan limit st :
  list_transactions json_loads cfg scan limit None st = scan_items cfg scan limit st.
Proof.
  unfold list_transactions, mbind, handler_bind.
  destruct (scan_items cfg scan limit st) as [[items|c d|] st']; reflexivity.
Qed.

(** C7 (amended). For a limit that is not negative and a non-empty X-User
    filter, [list_transactions] returns, in scan order, exactly the scanned
    records whose identity is a non-empty string that equals the filter, or
    whose decoded email and the filter's decoded email are both non-empty
    and equal.  Records without an identity, with an identity that is not
    a string, or with one that matches in neither way are left out; the
    filter itself never raises. *)
Theorem filter_keeps_matching_identities
    (cfg : config) (scan : dynamo_reply (list dict)) (limit : Z)
    (x_user : string) (st st' : state) (scanned : list dict) :
  0 <= limit -> x_user <> "" ->
  scan_items cfg scan limit st = (Return scanned, st') ->
  list_transactions json_loads cfg scan limit (Some x_user) st
  = (Return (List.filter (matches x_user) scanned), st') /\
  (forall it, In it (List.filter (matches x_user) scanned) <->
              In it scanned /\ matches x_user it = true) /\
  (forall it, matches x_user it = true <->
     exists u, dict_get "user" it = Some (VStr u) /\ u <> "" /\
       (u = x_user \/
        (Py.truthy (extract_email json_loads x_user) = true /\
         Py.truthy (extract_email json_loads u) = true /\
         Py.eq (extract_email json_loads x_user) (extract_email json_loads u)
         = true))) /\
  (forall it, dict_get "user" it = None -> matches x_user it = false) /\
  (forall it v, dict_get "user" it = Some v -> (forall u, v <> VStr u) ->
     matches x_user it = false).
Proof.
  intros Hl Hx Hscan. split; [|split; [|split; [|split]]].
  - unfold list_transactions, mbind, handler_bind, mret, handler_ret.
    rewrite Hscan. unfold filter_items, Py.str_truthy.
    apply String.eqb_neq in Hx. rewrite Hx. cbn [negb].
    rewrite filter_loop. cbn [app].
    rewrite slice_to_short; [reflexivity|].
    pose proof (scan_items_length cfg scan limit st scanned st' Hl Hscan).
    pose proof (filter_length x_user scanned). lia.
  - intros it. apply filter_In.
  - intros it. unfold identity_matches, py_get.
    destruct (dict_get "user" it) as [v|] eqn:Ev.
    + destruct v as [| b | z | f | u | l | d];
        try (split; [discriminate | intros (u' & E & _); discriminate E]).
      rewrite andb_true_iff, negb_true_iff, String.eqb_neq, orb_true_iff,
              String.eqb_eq, !andb_true_iff.
      split.
      * intros [Hne H]. exists u. split; [reflexivity|]. split; [exact Hne|]. tauto.
      * intros (u' & E & Hne & H). inversion E; subst u'. tauto.
    + split; [discriminate | intros (u' & E & _); discriminate E].
  - intros it E. unfold identity_matches, py_get. now rewrite E.
  - intros it v E Hv. unfold identity_matches, py_get. rewrite E.
    destruct v; try reflexivity. now destruct (Hv s).
Qed.

End Filtering.

(** Two inputs on which the filter keeps less than the records whose
    identity equals the filter or whose decoded email equals the filter's.
    With limit [-1] the scan of three records of [alice] has two of them,
    and the filter returns one.  With the filter [{"email": ""}] a record
    whose identity decodes to the same (empty) email is left out. *)
Lemma filter_drops_matching_records :
  (let r3 := Sample.record_of "t3" "alice" 3 in
   let r2 := Sample.record_of "t2" "alice" 2 in
   let r1 := Sample.record_of "t1" "alice" 1 in
   let st := Sample.store_of [r3; r2; r1] in
   scan_items Sample.cfg_memory DynamoBotoError (-1) st = (Return [r3; r2], st) /\
   list_transactions Sample.loads Sample.cfg_memory DynamoBotoError (-1)
     (Some "alice") st = (Return [r3], st) /\
   identity_matches_any_email Sample.loads "alice" r2 = true /\
   ~ In r2 [r3]) /\
  (let rb := Sample.record_of "t1" Sample.blank_email_bob_json 1 in
   let st := Sample.store_of [rb] in
   scan_items Sample.cfg_memory DynamoBotoError 20 st = (Return [rb], st) /\
   list_transactions Sample.loads Sample.cfg_memory DynamoBotoError 20
     (Some Sample.blank_email_json) st = (Return [], st) /\
   identity_matches_any_email Sample.loads Sample.blank_email_json rb = true).
Proof.
  cbv zeta. split; [split; [|split; [|split]] | split; [|split]];
    try (vm_compute; reflexivity).
  intros [E | []]. discriminate E.
Qed.

(** Listing for [alice] keeps the record with that identity; listing for
    [{"email": "alice@example.com"}] keeps the record whose identity decodes
    to the same email. *)
Lemma filter_sample :
  let ra := Sample.record_of "t3" "alice" 3 in
  let rb := Sample.record_of "t2" "bob" 2 in
  let rj := Sample.record_of "t1" Sample.alice_json 1 in
  let st := Sample.store_of [ra; rb; rj] in
  list_transactions Sample.loads Sample.cfg_memory DynamoBotoError 20
    (Some "alice") st = (Return [ra], st) /\
  list_transactions Sample.loads Sample.cfg_memory DynamoBotoError 20
    (Some Sample.alice_email_json) st = (Return [rj], st).
Proof.
  cbv zeta. split.
  - destruct (filter_keeps_matching_identities Sample.loads Sample.cfg_memory
                DynamoBotoError 20 "alice"
                (Sample.store_of [ Sample.record_of "t3" "alice" 3;
                                   Sample.record_of "t2" "bob" 2;
                                   Sample.record_of "t1" Sample.alice_json 1 ])
                _ _ ltac:(lia) ltac:(discriminate) eq_refl) as [H _].
    rewrite H. vm_compute. reflexivity.
  - destruct (filter_keeps_matching_identities Sample.loads Sample.cfg_memory
                DynamoBotoError 20 Sample.alice_email_json
                (Sample.store_of [ Sample.record_of "t3" "alice" 3;
                                   Sample.record_of "t2" "bob" 2;
                                   Sample.record_of "t1" Sample.alice_json 1 ])
                _ _ ltac:(lia) ltac:(discriminate) eq_refl) as [H _].
    rewrite H. vm_compute. reflexivity.
Defined.

(** * Further properties of the handlers *)

(** ** The risk service and the local heuristic *)

Lemma float_gt_ge (a : pyfloat) (n m : Z) :
  m <= n -> Py.float_gt_int a n = true -> Py.float_ge_int a m = true.
Proof.
  destruct a as [|neg|q]; simpl; try (intros _ H; exact H).
  intros Hmn H. apply float_gt_int_fin in H. apply Qle_bool_iff.
  unfold Qlt, Qle in *. simpl in *. nia.
Qed.

Lemma classify_eq (cfg : config) (r r' : risk_response) (t : Transaction) :
  risk_level (classify cfg r t) = risk_level (classify cfg r' t) ->
  high_risk (classify cfg r t) = high_risk (classify cfg r' t) ->
  classify cfg r t = classify cfg r' t.
Proof.
  unfold classify. cbn [risk_level high_risk]. intros -> ->. reflexivity.
Qed.

Lemma mock_reports_tier (t : Transaction) :
  reports_tier (mock_reply t) (amount_tier (amount t)).
Proof.
  unfold reports_tier, mock_reply, MockRisk.risk, amount_tier, risk_request_of.
  cbn [MockRisk.amount risk_data reported_level].
  destruct (Py.float_gt_int (amount t) 10000);
    [|destruct (Py.float_gt_int (amount t) 1000)];
    (split; [simpl; auto | reflexivity]).
Qed.

Lemma amount_tier_high (a : pyfloat) :
  String.eqb (amount_tier a) "HIGH" = Py.float_gt_int a 10000.
Proof.
  unfold amount_tier. destruct (Py.float_gt_int a 10000); [reflexivity|].
  destruct (Py.float_gt_int a 1000); reflexivity.
Qed.

Lemma classify_mock (cfg : config) (t : Transaction) :
  risk_level (classify cfg (mock_reply t) t) = VStr (amount_tier (amount t)) /\
  high_risk (classify cfg (mock_reply t) t) = Py.float_gt_int (amount t) 10000.
Proof.
  destruct (classify_reported cfg (mock_reply t) t _ (mock_reports_tier t))
    as [Hl Hh].
  now rewrite Hl, Hh, amount_tier_high.
Qed.

Section RiskService.

Variable json_dumps : value -> option string.
Variable verify_oauth2_token : string -> option string -> option value.

Local Abbreviation create := (create_transaction json_dumps verify_oauth2_token).

(** The risk service enters [create_transaction] through the two risk
    fields only. *)
Lemma create_transaction_reply (cfg : config) (w : create_world)
    (r : risk_response) t x_user authorization st :
  classify cfg r t = classify cfg (risk_reply w) t ->
  create cfg (with_risk_reply w r) t x_user authorization st =
  create cfg w t x_user authorization st.
Proof.
  intros H. unfold create_transaction, mbind, handler_bind.
  destruct (resolve_identity json_dumps verify_oauth2_token cfg x_user
              authorization st) as [[user|c d|] st1]; try reflexivity.
  unfold build_record, with_risk_reply. cbn [risk_reply uuid4 time_now put_reply].
  rewrite H. reflexivity.
Qed.

(** X1. When the risk service is the stand-in one of [mock_risk.py], the
    record [create_transaction] returns has the tier the local fallback
    would give for the same amount, and is flagged exactly when the amount
    is above 10000. *)
Theorem mock_service_gives_fallback_tier
    cfg w t x_user authorization st record st' :
  create cfg (with_risk_reply w (mock_reply t)) t x_user authorization st
  = (Return record, st') ->
  dict_get "risk_level" record = Some (VStr (amount_tier (amount t))) /\
  dict_get "high_risk" record = Some (VBool (Py.float_gt_int (amount t) 10000)).
Proof.
  intros Hc.
  apply create_transaction_inv in Hc as (user & _ & _ & -> & _).
  cbn [risk_reply with_risk_reply].
  destruct (classify_mock cfg t) as [Hl Hh].
  destruct (build_record_fields (with_risk_reply w (mock_reply t)) user
              (classify cfg (mock_reply t) t)) as (-> & -> & _).
  now rewrite Hl, Hh.
Qed.

(** X2. A request served with the stand-in risk service and the same
    request served while the service is unreachable end the same way
    whenever [amount >= HIGH_RISK_AMOUNT] and [amount > 10000] agree; with
    the default threshold that is every finite amount but 10000, where the
    unreachable service gives a flagged record and the stand-in one an
    unflagged record. *)
Theorem mock_service_and_fallback_differ_at_threshold
    cfg w t x_user authorization st :
  (Py.float_ge_int (amount t) (HIGH_RISK_AMOUNT cfg)
   = Py.float_gt_int (amount t) 10000 ->
   create cfg (with_risk_reply w (mock_reply t)) t x_user authorization st =
   create cfg (with_risk_reply w RiskUnreachable) t x_user authorization st) /\
  (forall q, getenv cfg "HIGH_RISK_AMOUNT" = None -> amount t = FFin q ->
     ~ (q == inject_Z 10000)%Q ->
     create cfg (with_risk_reply w (mock_reply t)) t x_user authorization st =
     create cfg (with_risk_reply w RiskUnreachable) t x_user authorization st) /\
  (forall q down st1 mock st2,
     getenv cfg "HIGH_RISK_AMOUNT" = None -> amount t = FFin q ->
     (q == inject_Z 10000)%Q ->
     create cfg (with_risk_reply w RiskUnreachable) t x_user authorization st
     = (Return down, st1) ->
     create cfg (with_risk_reply w (mock_reply t)) t x_user authorization st
     = (Return mock, st2) ->
     dict_get "high_risk" down = Some (VBool true) /\
     dict_get "high_risk" mock = Some (VBool false) /\
     dict_get "risk_level" down = dict_get "risk_level" mock).
Proof.
  assert (Hagree : Py.float_ge_int (amount t) (HIGH_RISK_AMOUNT cfg)
                   = Py.float_gt_int (amount t) 10000 ->
                   create cfg (with_risk_reply w (mock_reply t)) t x_user
                     authorization st =
                   create cfg (with_risk_reply w RiskUnreachable) t x_user
                     authorization st).
  { intros Hsame.
    rewrite (create_transaction_reply cfg (with_risk_reply w RiskUnreachable)
               (mock_reply t)); [reflexivity|].
    cbn [risk_reply with_risk_reply].
    destruct (classify_mock cfg t) as [Hl Hh].
    destruct (classify_no_tier cfg RiskUnreachable t (proj1 no_tier_unreachable))
      as [Hl' Hh'].
    apply classify_eq; [now rewrite Hl, Hl'|].
    now rewrite Hh, Hh'. }
  split; [exact Hagree|]. split.
  - intros q Hdef Hq Hne. apply Hagree.
    rewrite (default_threshold cfg Hdef), Hq.
    destruct (Py.float_gt_int (FFin q) 10000) eqn:Egt.
    + now apply (float_gt_ge _ 10000 10000).
    + apply not_true_iff_false. intros Hge.
      apply float_ge_int_fin in Hge.
      apply not_true_iff_false in Egt. rewrite float_gt_int_fin in Egt.
      apply Hne. apply Qle_antisym; [|exact Hge].
      apply Qnot_lt_le. exact Egt.
  - intros q down st1 mock st2 Hdef Hq Heq Hdown Hmock.
    apply create_transaction_inv in Hdown as (user & _ & _ & -> & _).
    apply create_transaction_inv in Hmock as (user' & _ & _ & -> & _).
    cbn [risk_reply with_risk_reply].
    destruct (classify_mock cfg t) as [Hml Hmh].
    destruct (classify_no_tier cfg RiskUnreachable t (proj1 no_tier_unreachable))
      as [Hl' Hh'].
    destruct (build_record_fields (with_risk_reply w RiskUnreachable) user
                (classify cfg RiskUnreachable t)) as (-> & -> & _).
    destruct (build_record_fields (with_risk_reply w (mock_reply t)) user'
                (classify cfg (mock_reply t) t)) as (-> & -> & _).
    rewrite Hml, Hmh, Hl', Hh', (default_threshold cfg Hdef), Hq.
    assert (Hge : Py.float_ge_int (FFin q) 10000 = true).
    { apply float_ge_int_fin. rewrite Heq. apply Qle_refl. }
    assert (Hgt : Py.float_gt_int (FFin q) 10000 = false).
    { apply not_true_iff_false. rewrite float_gt_int_fin, Heq.
      apply Qlt_irrefl. }
    now rewrite Hge, Hgt.
Qed.

End RiskService.

Section RiskFallback.

Variable json_dumps : value -> option string.
Variable verify_oauth2_token : string -> option string -> option value.

Local Abbreviation create := (create_transaction json_dumps verify_oauth2_token).

(** X3. A reply of the risk service that carries no recognised tier (not
    JSON, not an object, no [risk_level], another value) has the same effect
    as no reply at all: the request ends the same way, with the same record
    and the same state. *)
Theorem unrecognised_reply_is_like_no_reply
    cfg w t x_user authorization st :
  no_tier (risk_reply w) ->
  create cfg w t x_user authorization st =
  create cfg (with_risk_reply w RiskUnreachable) t x_user authorization st.
Proof.
  intros Hno. symmetry. apply create_transaction_reply.
  destruct (classify_no_tier cfg (risk_reply w) t Hno) as [Hl Hh].
  destruct (classify_no_tier cfg RiskUnreachable t (proj1 no_tier_unreachable))
    as [Hl' Hh'].
  apply classify_eq; congruence.
Qed.

(** X4. Without a recognised tier, the flag and the tier of the returned
    record disagree exactly between the two thresholds: the record is
    flagged without being HIGH when [HIGH_RISK_AMOUNT <= amount <= 10000],
    and HIGH without being flagged when [10000 < amount < HIGH_RISK_AMOUNT]. *)
Theorem flag_and_tier_disagree_between_thresholds
    cfg w t x_user authorization st record st' q :
  create cfg w t x_user authorization st = (Return record, st') ->
  no_tier (risk_reply w) -> amount t = FFin q ->
  ((dict_get "high_risk" record = Some (VBool true) /\
    dict_get "risk_level" record <> Some (VStr "HIGH")) <->
   (inject_Z (HIGH_RISK_AMOUNT cfg) <= q /\ q <= inject_Z 10000)%Q) /\
  ((dict_get "high_risk" record = Some (VBool false) /\
    dict_get "risk_level" record = Some (VStr "HIGH")) <->
   (inject_Z 10000 < q /\ q < inject_Z (HIGH_RISK_AMOUNT cfg))%Q).
Proof.
  intros Hc Hno Hq.
  apply create_transaction_inv in Hc as (user & _ & _ & -> & _).
  destruct (classify_no_tier cfg (risk_reply w) t Hno) as [Hl Hh].
  destruct (build_record_fields w user (classify cfg (risk_reply w) t))
    as (-> & -> & _).
  rewrite Hl, Hh, Hq.
  pose proof (float_ge_int_fin q (HIGH_RISK_AMOUNT cfg)) as Hge.
  pose proof (float_gt_int_fin q 10000) as Hgt.
  pose proof (amount_tier_high (FFin q)) as Hhigh.
  assert (Htier : Some (VStr (amount_tier (FFin q))) = Some (VStr "HIGH") <->
                  (inject_Z 10000 < q)%Q).
  { rewrite <- Hgt, <- Hhigh, String.eqb_eq.
    split; [congruence | now intros ->]. }
  assert (Hflag : Some (VBool (Py.float_ge_int (FFin q) (HIGH_RISK_AMOUNT cfg)))
                  = Some (VBool true) <-> (inject_Z (HIGH_RISK_AMOUNT cfg) <= q)%Q).
  { rewrite <- Hge. split; [congruence | now intros ->]. }
  assert (Hnoflag : Some (VBool (Py.float_ge_int (FFin q) (HIGH_RISK_AMOUNT cfg)))
                    = Some (VBool false) <-> (q < inject_Z (HIGH_RISK_AMOUNT cfg))%Q).
  { split.
    - intros E. apply Qnot_le_lt. rewrite <- Hge. intros Ht.
      rewrite Ht in E. discriminate E.
    - intros Hlt. do 2 f_equal. apply not_true_iff_false. rewrite Hge.
      now apply Qlt_not_le. }
  rewrite Htier, Hflag, Hnoflag. split; split.
  - intros [H1 H2]. split; [exact H1 | now apply Qnot_lt_le].
  - intros [H1 H2]. split; [exact H1 | now apply Qle_not_lt].
  - intros [H1 H2]. now split.
  - intros [H1 H2]. now split.
Qed.

(** X5. The two risk fields a client puts in the request body are ignored:
    two transactions with the same amount, currency and merchant end the
    same way. *)
Theorem client_risk_fields_are_ignored
    cfg w t t' x_user authorization st :
  amount t = amount t' -> currency t = currency t' -> merchant t = merchant t' ->
  create_transaction json_dumps verify_oauth2_token cfg w t x_user
    authorization st =
  create_transaction json_dumps verify_oauth2_token cfg w t' x_user
    authorization st.
Proof.
  intros Ha Hcur Hm.
  assert (Hcl : classify cfg (risk_reply w) t = classify cfg (risk_reply w) t').
  { unfold classify. now rewrite Ha, Hcur, Hm. }
  unfold create_transaction. now rewrite Hcl.
Qed.

(** X6. When [HIGH_RISK_AMOUNT] is at most 10000 (as by default), every
    record that [create_transaction] returns with the tier HIGH is flagged,
    whatever the risk service answered. *)
Theorem high_tier_is_flagged
    cfg w t x_user authorization st record st' :
  create cfg w t x_user authorization st = (Return record, st') ->
  HIGH_RISK_AMOUNT cfg <= 10000 ->
  high_is_flagged record.
Proof.
  intros Hc Hthr Hhigh.
  apply create_transaction_inv in Hc as (user & _ & _ & -> & _).
  destruct (build_record_fields w user (classify cfg (risk_reply w) t))
    as (Frl & Fhr & _).
  rewrite Frl in Hhigh. rewrite Fhr. do 2 f_equal.
  destruct (no_tier_or_reports (risk_reply w)) as [Hno | [tier Hrep]].
  - destruct (classify_no_tier cfg (risk_reply w) t Hno) as [Hl Hh].
    rewrite Hh. rewrite Hl in Hhigh. apply (float_gt_ge _ 10000); [exact Hthr|].
    rewrite <- amount_tier_high. apply String.eqb_eq. congruence.
  - destruct (classify_reported cfg (risk_reply w) t tier Hrep) as [Hl Hh].
    rewrite Hh. rewrite Hl in Hhigh. apply String.eqb_eq. congruence.
Qed.

End RiskFallback.

(** The amount 2500 scored by the stand-in service. *)
Lemma mock_service_sample :
  let record :=
    [ ("id", VStr "7f1c"); ("timestamp", VInt 1700000000);
      ("user", VStr "alice"); ("amount", VFloat (FFin (inject_Z 2500)));
      ("currency", VStr "USD"); ("merchant", VStr "ACME");
      ("risk_level", VStr "MEDIUM"); ("high_risk", VBool false) ] in
  dict_get "risk_level" record = Some (VStr "MEDIUM") /\
  dict_get "high_risk" record = Some (VBool false).
Proof.
  exact (mock_service_gives_fallback_tier Sample.dumps Sample.verify
           Sample.cfg_memory (Sample.world RiskUnreachable DynamoBotoError)
           (Sample.transaction 2500) (Some "alice") None initial_state
           _ _ eq_refl).
Defined.

(** The amounts 500 and 10000, with the stand-in service and without. *)
Lemma mock_service_and_fallback_sample :
  create_transaction Sample.dumps Sample.verify Sample.cfg_memory
    (with_risk_reply (Sample.world RiskNotJson DynamoBotoError)
       (mock_reply (Sample.transaction 500)))
    (Sample.transaction 500) (Some "alice") None initial_state
  = create_transaction Sample.dumps Sample.verify Sample.cfg_memory
      (with_risk_reply (Sample.world RiskNotJson DynamoBotoError) RiskUnreachable)
      (Sample.transaction 500) (Some "alice") None initial_state /\
  fst (create_transaction Sample.dumps Sample.verify Sample.cfg_memory
         (with_risk_reply (Sample.world RiskNotJson DynamoBotoError)
            (mock_reply (Sample.transaction 10000)))
         (Sample.transaction 10000) (Some "alice") None initial_state)
  <> fst (create_transaction Sample.dumps Sample.verify Sample.cfg_memory
            (with_risk_reply (Sample.world RiskNotJson DynamoBotoError)
               RiskUnreachable)
            (Sample.transaction 10000) (Some "alice") None initial_state).
Proof.
  split.
  - apply (proj1 (proj2 (mock_service_and_fallback_differ_at_threshold
                           Sample.dumps Sample.verify Sample.cfg_memory
                           (Sample.world RiskNotJson DynamoBotoError)
                           (Sample.transaction 500) (Some "alice") None
                           initial_state))
             (inject_Z 500)).
    + vm_compute. reflexivity.
    + reflexivity.
    + unfold Qeq. simpl. lia.
  - destruct (proj2 (proj2 (mock_service_and_fallback_differ_at_threshold
                              Sample.dumps Sample.verify Sample.cfg_memory
                              (Sample.world RiskNotJson DynamoBotoError)
                              (Sample.transaction 10000) (Some "alice") None
                              initial_state))
                (inject_Z 10000) _ _ _ _ eq_refl eq_refl (Qeq_refl _)
                eq_refl eq_refl) as (Hd & Hm & _).
    vm_compute. intros E. inversion E.
Defined.

(** A reply with an unknown tier. *)
Lemma unrecognised_reply_sample :
  create_transaction Sample.dumps Sample.verify Sample.cfg_memory
    (Sample.world (RiskJson (VList [VStr "HIGH"])) DynamoBotoError)
    (Sample.transaction 15000) (Some "alice") None initial_state
  = create_transaction Sample.dumps Sample.verify Sample.cfg_memory
      (Sample.world RiskUnreachable DynamoBotoError)
      (Sample.transaction 15000) (Some "alice") None initial_state.
Proof.
  apply (unrecognised_reply_is_like_no_reply Sample.dumps Sample.verify
           Sample.cfg_memory
           (Sample.world (RiskJson (VList [VStr "HIGH"])) DynamoBotoError)).
  intros tier _. vm_compute. discriminate.
Defined.

(** A threshold of 5000 and the amount 6000: flagged, and MEDIUM. *)
Lemma flag_and_tier_sample :
  dict_get "high_risk" Demo.alice_record = Some (VBool true) /\
  dict_get "risk_level" Demo.alice_record <> Some (VStr "HIGH").
Proof.
  apply (proj1 (flag_and_tier_disagree_between_thresholds Sample.dumps
                  Sample.verify Demo.cfg_5000
                  (Sample.world RiskUnreachable DynamoBotoError)
                  (Sample.transaction 6000) (Some "alice") None initial_state
                  Demo.alice_record _ (inject_Z 6000) eq_refl
                  (proj1 no_tier_unreachable) eq_refl)).
  vm_compute. split; discriminate.
Defined.

(** A client that sends [high_risk] and [risk_level] itself. *)
Lemma client_risk_fields_sample :
  create_transaction Sample.dumps Sample.verify Sample.cfg_memory
    (Sample.world RiskUnreachable DynamoBotoError) (Sample.transaction 15000)
    (Some "alice") None initial_state
  = create_transaction Sample.dumps Sample.verify Sample.cfg_memory
      (Sample.world RiskUnreachable DynamoBotoError)
      {| amount := FFin (inject_Z 15000); currency := "USD"; merchant := "ACME";
         high_risk := false; risk_level := VStr "LOW" |}
      (Some "alice") None initial_state.
Proof.
  apply (client_risk_fields_are_ignored Sample.dumps Sample.verify);
    reflexivity.
Defined.

(** The amount 15000 with no risk service. *)
Lemma high_tier_flagged_sample :
  dict_get "high_risk"
    [ ("id", VStr "7f1c"); ("timestamp", VInt 1700000000);
      ("user", VStr "alice"); ("amount", VFloat (FFin (inject_Z 15000)));
      ("currency", VStr "USD"); ("merchant", VStr "ACME");
      ("risk_level", VStr "HIGH"); ("high_risk", VBool true) ]
  = Some (VBool true).
Proof.
  apply (high_tier_is_flagged Sample.dumps Sample.verify Sample.cfg_memory
           (Sample.world RiskUnreachable DynamoBotoError)
           (Sample.transaction 15000) (Some "alice") None initial_state
           _ _ eq_refl).
  - vm_compute. discriminate.
  - reflexivity.
Defined.

(** ** Identities *)

Lemma is_bearer_false (a : string) :
  (forall token, a <> "Bearer " +:+ token) -> is_bearer (Some a) = false.
Proof.
  intros H. destruct (is_bearer (Some a)) eqn:E; [|reflexivity].
  apply is_bearer_inv in E as [token E]. inversion E. now destruct (H token).
Qed.

Lemma expected_audience_cases (cfg : config) :
  match getenv cfg "GOOGLE_OAUTH_CLIENT_ID" with
  | Some a => if String.eqb a "" then expected_audience cfg = None
              else expected_audience cfg = Some a
  | None => expected_audience cfg = None
  end.
Proof.
  unfold expected_audience.
  destruct (getenv cfg "GOOGLE_OAUTH_CLIENT_ID") as [a|]; [|reflexivity].
  simpl. unfold Py.str_truthy. now destruct (String.eqb a "").
Qed.

Section IdentityFacts.

Variable json_dumps : value -> option string.
Variable verify_oauth2_token : string -> option string -> option value.
Variable verify_error_text : string -> option string -> string.

Local Abbreviation resolve := (resolve_identity json_dumps verify_oauth2_token).
Local Abbreviation create := (create_transaction json_dumps verify_oauth2_token).
Local Abbreviation auth_verify :=
  (verify_id_token verify_oauth2_token verify_error_text).

(** What a resolved identity is. *)
Lemma resolve_identity_inv cfg x_user authorization st user st' :
  resolve cfg x_user authorization st = (Return user, st') ->
  user <> "" /\
  (is_bearer authorization = false -> x_user = Some user) /\
  (forall token, authorization = Some ("Bearer " +:+ token) ->
     token_identity json_dumps verify_oauth2_token cfg token = Some user).
Proof.
  unfold resolve_identity, user_header_of, mbind, handler_bind, mret,
         handler_ret, raise, crash.
  destruct (is_bearer authorization) eqn:Eb.
  - apply is_bearer_inv in Eb as [token ->].
    destruct (bearer_is_bearer token) as [_ ->].
    destruct (token_identity json_dumps verify_oauth2_token cfg token)
      as [u|] eqn:Et; [|discriminate].
    unfold Py.str_truthy. destruct (String.eqb u "") eqn:Eu; [discriminate|].
    cbn [negb]. intros E. inversion E; subst.
    apply String.eqb_neq in Eu. split; [exact Eu|].
    split; [discriminate|].
    intros token' E'. inversion E' as [E'']. 
    assert (token' = token) as -> by
      (clear -E''; induction "Bearer " as [|c p IH]; [exact (eq_sym E'') |
       simpl in E''; inversion E''; auto]).
    exact Et.
  - destruct (Py.opt_truthy x_user) eqn:Ex; [|discriminate].
    destruct x_user as [u|]; [|discriminate]. simpl in Ex. rewrite Ex.
    intros E. inversion E; subst.
    unfold Py.str_truthy in Ex. apply negb_true_iff, String.eqb_neq in Ex.
    split; [exact Ex|]. split; [reflexivity|].
    intros token ->. destruct (bearer_is_bearer token) as [Hb _]. congruence.
Qed.

(** X7. An Authorization value that is not [Bearer ] followed by a token
    (another scheme, another letter case, no space) is ignored: the request
    ends as if no Authorization header had been sent. *)
Theorem non_bearer_authorization_is_ignored
    cfg w t x_user (a : string) st :
  (forall token, a <> "Bearer " +:+ token) ->
  create_transaction json_dumps verify_oauth2_token cfg w t x_user (Some a) st =
  create_transaction json_dumps verify_oauth2_token cfg w t x_user None st.
Proof.
  intros H. apply is_bearer_false in H.
  unfold create_transaction, resolve_identity, user_header_of.
  now rewrite H.
Qed.

(** X8. The record [create_transaction] returns carries a non-empty
    identity string.  Without a Bearer value it is the X-User header as
    sent; with one it is the serialisation of the name and email claims of
    the verified token. *)
Theorem record_carries_the_identity
    cfg w t x_user authorization st record st' :
  create cfg w t x_user authorization st = (Return record, st') ->
  exists user,
    dict_get "user" record = Some (VStr user) /\ user <> "" /\
    (is_bearer authorization = false -> x_user = Some user) /\
    (forall token, authorization = Some ("Bearer " +:+ token) ->
       exists payload,
         verify_oauth2_token token (expected_audience cfg)
         = Some (VDict payload) /\
         json_dumps (VDict [ ("name", py_get "name" payload);
                             ("email", py_get "email" payload) ])
         = Some user).
Proof.
  intros Hc.
  apply create_transaction_inv in Hc as (user & Hid & _ & -> & _).
  apply resolve_identity_inv in Hid as (Hne & Hhdr & Htok).
  exists user. split; [reflexivity|]. split; [exact Hne|].
  split; [exact Hhdr|].
  intros token Ha. specialize (Htok token Ha). unfold token_identity in Htok.
  destruct (verify_oauth2_token token (expected_audience cfg))
    as [[| | | | | |payload]|]; try discriminate.
  exists payload. now split.
Qed.


End IdentityFacts.

(** X10. [GET /auth/config] always returns, and the [client_id] it
    publishes, when there is one and it is not empty, is the audience
    against which tokens are verified; when it is null or empty, tokens are
    verified without an audience. *)
Theorem auth_config_publishes_the_audience (cfg : config) (st : state) :
  exists d,
    auth_config cfg st = (Return d, st) /\
    map fst d = ["client_id"; "project_id"] /\
    (forall a, expected_audience cfg = Some a <->
               dict_get "client_id" d = Some (VStr a) /\ a <> "") /\
    (expected_audience cfg = None <->
     dict_get "client_id" d = Some VNone \/
     dict_get "client_id" d = Some (VStr "")).
Proof.
  eexists. split; [reflexivity|]. split; [reflexivity|].
  cbn [dict_get String.eqb Ascii.eqb Bool.eqb].
  pose proof (expected_audience_cases cfg) as H.
  destruct (getenv cfg "GOOGLE_OAUTH_CLIENT_ID") as [a|]; cbn [value_of_env].
  - destruct (String.eqb a "") eqn:Ea; rewrite H.
    + apply String.eqb_eq in Ea. subst a. split.
      * intros b. split; [discriminate | intros [E Hb]; congruence].
      * split; auto.
    + apply String.eqb_neq in Ea. split.
      * intros b. split; [intros E; inversion E; subst; auto |
                          intros [E _]; congruence].
      * split; [discriminate | intros [E | E]; congruence].
  - rewrite H. split.
    + intros b. split; [discriminate | intros [E _]; discriminate].
    + split; auto.
Qed.

(** A lower-case scheme next to an X-User header. *)
Lemma non_bearer_sample :
  create_transaction Sample.dumps Sample.verify Sample.cfg_memory
    (Sample.world RiskUnreachable DynamoBotoError) (Sample.transaction 50)
    (Some "mallory") (Some "bearer alice-token") initial_state
  = create_transaction Sample.dumps Sample.verify Sample.cfg_memory
      (Sample.world RiskUnreachable DynamoBotoError) (Sample.transaction 50)
      (Some "mallory") None initial_state.
Proof.
  apply (non_bearer_authorization_is_ignored Sample.dumps Sample.verify).
  intros token E. discriminate E.
Defined.

(** The identity recorded for an accepted token. *)
Lemma record_identity_sample :
  exists user,
    dict_get "user"
      [ ("id", VStr "7f1c"); ("timestamp", VInt 1700000000);
        ("user", VStr Sample.alice_json);
        ("amount", VFloat (FFin (inject_Z 50)));
        ("currency", VStr "USD"); ("merchant", VStr "ACME");
        ("risk_level", VStr "LOW"); ("high_risk", VBool false) ]
    = Some (VStr user) /\ user <> "".
Proof.
  destruct (record_carries_the_identity Sample.dumps Sample.verify
              Sample.cfg_memory (Sample.world RiskUnreachable DynamoBotoError)
              (Sample.transaction 50) (Some "mallory")
              (Some "Bearer alice-token") initial_state _ _ eq_refl)
    as (user & Hu & Hne & _).
  exists user. split; [exact Hu | exact Hne].
Defined.


(** A configured client id. *)
Lemma auth_config_sample :
  expected_audience Demo.cfg_oauth = Some "client-1" /\
  expected_audience Sample.cfg_memory = None.
Proof.
  split.
  - destruct (auth_config_publishes_the_audience Demo.cfg_oauth initial_state)
      as (d & E & _ & Ha & _).
    apply Ha. inversion E. split; [vm_compute; reflexivity | discriminate].
  - destruct (auth_config_publishes_the_audience Sample.cfg_memory initial_state)
      as (d & E & _ & _ & Hn).
    apply Hn. inversion E. left. vm_compute. reflexivity.
Defined.

(** ** Outcomes and state *)

Lemma classify_tier (cfg : config) (r : risk_response) (t : Transaction) :
  exists tier, In tier TIERS /\ risk_level (classify cfg r t) = VStr tier.
Proof.
  destruct (no_tier_or_reports r) as [Hno | [tier Hrep]].
  - destruct (classify_no_tier cfg r t Hno) as [-> _].
    exists (amount_tier (amount t)). split; [|reflexivity].
    unfold amount_tier, TIERS.
    destruct (Py.float_gt_int (amount t) 10000);
      [|destruct (Py.float_gt_int (amount t) 1000)]; simpl; auto.
  - destruct (classify_reported cfg r t tier Hrep) as [-> _].
    exists tier. split; [apply Hrep | reflexivity].
Qed.

Lemma build_record_well_formed (w : create_world) (user : string)
    (cfg : config) (r : risk_response) (t : Transaction) :
  user <> "" -> well_formed_record (build_record w user (classify cfg r t)).
Proof.
  intros Hne. destruct (classify_tier cfg r t) as (tier & Hin & Htier).
  split; [reflexivity|]. split; [exists user; now split|].
  split; [exists tier; split; [exact Hin|]|].
  - destruct (build_record_fields w user (classify cfg r t)) as (-> & _).
    now rewrite Htier.
  - eexists. reflexivity.
Qed.

Section Outcomes.

Variable json_dumps : value -> option string.
Variable verify_oauth2_token : string -> option string -> option value.

Local Abbreviation resolve := (resolve_identity json_dumps verify_oauth2_token).
Local Abbreviation create := (create_transaction json_dumps verify_oauth2_token).

(** Resolving the identity ends in one of three ways. *)
Lemma resolve_identity_outcomes cfg x_user authorization st :
  (exists user, resolve cfg x_user authorization st = (Return user, st)) \/
  resolve cfg x_user authorization st = (HTTPException 401 INVALID_TOKEN, st) \/
  resolve cfg x_user authorization st = (HTTPException 401 MISSING_AUTH, st).
Proof.
  unfold resolve_identity, user_header_of, mbind, handler_bind, mret,
         handler_ret, raise, crash.
  destruct (is_bearer authorization) eqn:Eb.
  - apply is_bearer_inv in Eb as [token ->].
    destruct (bearer_is_bearer token) as [_ ->].
    destruct (token_identity json_dumps verify_oauth2_token cfg token) as [u|];
      [|auto].
    destruct (Py.str_truthy u); eauto.
  - destruct (Py.opt_truthy x_user); [|auto].
    destruct x_user as [u|]; [|auto].
    destruct (Py.str_truthy u); eauto.
Qed.

(** The state [create_transaction] leaves, from its outcome. *)
Lemma create_transaction_state cfg w t x_user authorization st :
  snd (create cfg w t x_user authorization st) =
  match fst (create cfg w t x_user authorization st) with
  | Return record =>
      if written_durably cfg (put_reply w) then
        {| transactions_store := transactions_store st;
           dynamo_items := record :: dynamo_items st |}
      else
        {| transactions_store := store_insert record (transactions_store st);
           dynamo_items := dynamo_items st |}
  | _ => st
  end.
Proof.
  unfold create_transaction, mbind, handler_bind.
  pose proof (resolve_identity_state json_dumps verify_oauth2_token
                cfg x_user authorization st) as Hst.
  destruct (resolve cfg x_user authorization st) as [[user|c d|] st1];
    simpl in Hst; subst st1; try reflexivity.
  rewrite save_transaction_record_cases.
  destruct (save_raises cfg (put_reply w)); [reflexivity|].
  destruct (written_durably cfg (put_reply w)); reflexivity.
Qed.

Lemma created_record_well_formed cfg w t x_user authorization st record st' :
  create cfg w t x_user authorization st = (Return record, st') ->
  well_formed_record record.
Proof.
  intros Hc. apply create_transaction_inv in Hc as (user & Hid & _ & -> & _).
  apply (resolve_identity_inv json_dumps verify_oauth2_token) in Hid
    as (Hne & _).
  now apply build_record_well_formed.
Qed.

(** X11. [create_transaction] ends in one of four ways: it returns a
    record, it raises one of its two 401 errors, or the write to DynamoDB
    raised an exception that is not caught (the only way for it to raise
    anything else than a 401).  The state changes only when a record is
    returned, and then by exactly that record, in exactly one place: the
    table or the in-memory store. *)
Theorem create_transaction_outcomes cfg w t x_user authorization st :
  let out := create cfg w t x_user authorization st in
  ((exists record, fst out = Return record) \/
   fst out = HTTPException 401 INVALID_TOKEN \/
   fst out = HTTPException 401 MISSING_AUTH \/
   fst out = Uncaught) /\
  (fst out = Uncaught <->
   (exists user, resolve cfg x_user authorization st = (Return user, st)) /\
   save_raises cfg (put_reply w) = true) /\
  (forall record, fst out = Return record ->
     if written_durably cfg (put_reply w) then
       snd out = {| transactions_store := transactions_store st;
                    dynamo_items := record :: dynamo_items st |}
     else
       snd out = {| transactions_store :=
                      store_insert record (transactions_store st);
                    dynamo_items := dynamo_items st |}) /\
  ((forall record, fst out <> Return record) -> snd out = st).
Proof.
  cbv zeta. split; [|split; [|split]].
  - unfold create_transaction, mbind, handler_bind.
    destruct (resolve_identity_outcomes cfg x_user authorization st)
      as [[user ->] | [-> | ->]]; auto.
    rewrite save_transaction_record_cases.
    destruct (save_raises cfg (put_reply w)); [auto|].
    destruct (written_durably cfg (put_reply w)); left; eexists; reflexivity.
  - unfold create_transaction, mbind, handler_bind.
    destruct (resolve_identity_outcomes cfg x_user authorization st)
      as [[user E] | [E | E]]; rewrite E.
    + rewrite save_transaction_record_cases.
      destruct (save_raises cfg (put_reply w)).
      * split; [intros _; split; eauto | reflexivity].
      * destruct (written_durably cfg (put_reply w)); cbn;
          (split; [discriminate | intros [_ H]; discriminate H]).
    + split; [discriminate | intros [[user H] _]; discriminate H].
    + split; [discriminate | intros [[user H] _]; discriminate H].
  - intros record E. rewrite create_transaction_state, E.
    now destruct (written_durably cfg (put_reply w)).
  - intros H. rewrite create_transaction_state.
    destruct (fst (create cfg w t x_user authorization st)) as [record| |] eqn:E;
      [now destruct (H record) | reflexivity | reflexivity].
Qed.

End Outcomes.

Section ReachableStates.

Variable json_loads : string -> option value.
Variable json_dumps : value -> option string.
Variable verify_oauth2_token : string -> option string -> option value.
Variable verify_error_text : string -> option string -> string.

Local Abbreviation serve1 :=
  (serve json_loads json_dumps verify_oauth2_token verify_error_text).
Local Abbreviation serve_seq :=
  (serve_all json_loads json_dumps verify_oauth2_token verify_error_text).

Lemma list_transactions_state cfg scan limit x_user st :
  snd (list_transactions json_loads cfg scan limit x_user st) = st.
Proof.
  unfold list_transactions, mbind, handler_bind.
  pose proof (scan_items_state cfg scan limit st) as H.
  destruct (scan_items cfg scan limit st) as [[items|c d|] st']; exact H.
Qed.

Lemma verify_id_token_state cfg body st :
  snd (verify_id_token verify_oauth2_token verify_error_text cfg body st) = st.
Proof.
  unfold verify_id_token.
  destruct (negb (Py.str_truthy (id_token body))); [reflexivity|].
  destruct (verify_oauth2_token (id_token body) (expected_audience cfg));
    reflexivity.
Qed.

(** X12. Only [POST /transactions] and [DELETE /transactions] can change
    the state: serving [GET /transactions], [POST /auth/verify] or
    [GET /auth/config] leaves it as it was, whatever they return or raise;
    and no request ever removes or alters an item written to the table. *)
Theorem reads_leave_the_state cfg (r : request) st :
  (match r with
   | GetTransactions _ _ _ | PostAuthVerify _ | GetAuthConfig =>
       serve1 cfg r st = st
   | PostTransactions _ _ _ _ | DeleteTransactions => True
   end) /\
  exists added, dynamo_items (serve1 cfg r st) = (added ++ dynamo_items st)%list.
Proof.
  destruct r as [w t x_user authorization | scan limit x_user | | body | ];
    cbn [serve].
  - split; [exact I|]. rewrite create_transaction_state.
    destruct (fst (create_transaction _ _ cfg w t x_user authorization st))
      as [record| |]; try (exists []; reflexivity).
    destruct (written_durably cfg (put_reply w));
      [exists [record] | exists []]; reflexivity.
  - rewrite list_transactions_state. split; [reflexivity | now exists []].
  - split; [exact I|]. unfold clear_transactions.
    destruct (_ && _); now exists [].
  - rewrite verify_id_token_state. split; [reflexivity | now exists []].
  - split; [reflexivity | now exists []].
Qed.

(** The invariant of the state. *)
Lemma serve_invariant cfg (r : request) st :
  (length (transactions_store st) <= STORE_CAPACITY)%nat ->
  Forall well_formed_record (transactions_store st) ->
  Forall well_formed_record (dynamo_items st) ->
  (length (transactions_store (serve1 cfg r st)) <= STORE_CAPACITY)%nat /\
  Forall well_formed_record (transactions_store (serve1 cfg r st)) /\
  Forall well_formed_record (dynamo_items (serve1 cfg r st)).
Proof.
  intros Hlen Hs Hd.
  destruct r as [w t x_user authorization | scan limit x_user | | body | ];
    cbn [serve].
  - rewrite create_transaction_state.
    destruct (create_transaction _ _ cfg w t x_user authorization st)
      as [[record| |] st'] eqn:Hc; cbn [fst]; auto.
    apply created_record_well_formed in Hc.
    destruct (written_durably cfg (put_reply w));
      cbn [transactions_store dynamo_items].
    + split; [exact Hlen|]. split; [exact Hs | now constructor].
    + split; [now apply store_insert_length|]. split; [|exact Hd].
      rewrite store_insert_take by exact Hlen.
      apply Forall_take. now constructor.
  - rewrite list_transactions_state. auto.
  - unfold clear_transactions. destruct (_ && _); cbn; auto.
    split; [lia|]. split; [constructor | exact Hd].
  - rewrite verify_id_token_state. auto.
  - cbn. auto.
Qed.

(** X13. Whatever requests are served, in whatever order and with whatever
    answers from the outside world, the in-memory store never holds more
    than 200 records, and every record in it, like every item this process
    wrote to the table, has the eight keys of a record, a non-empty
    identity string, a tier among HIGH, MEDIUM, LOW and a boolean flag. *)
Theorem reachable_states_are_well_formed cfg (rs : list request) :
  let st := serve_seq cfg rs initial_state in
  (length (transactions_store st) <= 200)%nat /\
  Forall well_formed_record (transactions_store st) /\
  Forall well_formed_record (dynamo_items st).
Proof.
  cbv zeta. change 200%nat with STORE_CAPACITY.
  assert (H : forall st,
             (length (transactions_store st) <= STORE_CAPACITY)%nat ->
             Forall well_formed_record (transactions_store st) ->
             Forall well_formed_record (dynamo_items st) ->
             (length (transactions_store (serve_seq cfg rs st))
              <= STORE_CAPACITY)%nat /\
             Forall well_formed_record (transactions_store (serve_seq cfg rs st)) /\
             Forall well_formed_record (dynamo_items (serve_seq cfg rs st))).
  { induction rs as [|r rs IH]; intros st Hlen Hs Hd; [auto|].
    destruct (serve_invariant cfg r st Hlen Hs Hd) as (H1 & H2 & H3).
    exact (IH _ H1 H2 H3). }
  apply H; simpl; [lia | constructor | constructor].
Qed.

End ReachableStates.

(** ** Listing *)

Lemma slice_to_nil {A : Type} (n : Z) : Py.slice_to n (@nil A) = [].
Proof. unfold Py.slice_to. destruct (0 <=? n); now rewrite take_nil. Qed.

Lemma slice_to_cons {A : Type} (n : Z) (x : A) (l : list A) :
  1 <= n -> Py.slice_to n (x :: l) = x :: Py.slice_to (n - 1) l.
Proof.
  intros H. rewrite !slice_to_nonneg by lia.
  replace (Z.to_nat n) with (S (Z.to_nat (n - 1))) by lia. reflexivity.
Qed.

Lemma slice_to_prefix {A : Type} (n : Z) (l : list A) :
  exists dropped, l = (Py.slice_to n l ++ dropped)%list.
Proof.
  unfold Py.slice_to. destruct (0 <=? n); eexists; symmetry; apply take_drop.
Qed.

Lemma slice_to_negative {A : Type} (n : Z) (l : list A) :
  n < 0 -> Py.slice_to n l = take (length l - Z.to_nat (- n)) l.
Proof.
  intros H. unfold Py.slice_to. destruct (Z.leb_spec 0 n); [lia | reflexivity].
Qed.

Lemma with_keys_none items :
  with_keys items = None <-> exists x, In x items /\ timestamp_key x = None.
Proof.
  induction items as [|x items IH]; simpl.
  - split; [discriminate | intros (x & [] & _)].
  - destruct (timestamp_key x) as [k|] eqn:Ek.
    + destruct (with_keys items) as [rest|].
      * split; [discriminate|]. intros (y & [<- | Hin] & Hy); [congruence|].
        destruct IH as [_ IH]. assert (Some rest = None) as E by eauto.
        discriminate E.
      * split; [|reflexivity]. intros _.
        destruct IH as [IH _]. destruct (IH eq_refl) as (y & Hin & Hy). eauto.
    + split; [eauto | reflexivity].
Qed.

Lemma filter_insert_desc (k k0 : Z) (x : dict) (l : list (Z * dict)) :
  List.filter (fun kx => fst kx =? k) (insert_desc k0 x l) =
  List.filter (fun kx => fst kx =? k) ((k0, x) :: l).
Proof.
  induction l as [|[k' y] l IH]; [reflexivity|].
  cbn [insert_desc]. destruct (Z.ltb_spec k0 k') as [Hlt | Hge]; [|reflexivity].
  cbn [List.filter fst] in *. rewrite IH.
  destruct (Z.eqb_spec k' k), (Z.eqb_spec k0 k); try reflexivity. lia.
Qed.

Lemma filter_sort_desc (k : Z) (l : list (Z * dict)) :
  List.filter (fun kx => fst kx =? k) (sort_desc l) =
  List.filter (fun kx => fst kx =? k) l.
Proof.
  induction l as [|[k0 x] l IH]; [reflexivity|].
  cbn [sort_desc foldr fst snd]. fold (sort_desc l).
  rewrite filter_insert_desc. cbn [List.filter]. now rewrite IH.
Qed.

Lemma filter_has_key (k : Z) (l : list (Z * dict)) :
  Forall keyed_ok l ->
  List.filter (has_key k) (map snd l) =
  map snd (List.filter (fun kx => fst kx =? k) l).
Proof.
  induction 1 as [|[k0 x] l Hok _ IH]; [reflexivity|].
  cbn [map List.filter snd fst]. rewrite IH.
  unfold has_key. unfold keyed_ok in Hok. cbn [fst snd] in Hok. rewrite Hok.
  now destruct (k0 =? k).
Qed.

(** X14. Sorting the retrieved items keeps those with the same timestamp
    in the order in which DynamoDB returned them. *)
Theorem sort_keeps_order_of_equal_timestamps
    (items sorted : list dict) (k : Z) :
  sorted_by_timestamp items = Some sorted ->
  List.filter (has_key k) sorted = List.filter (has_key k) items.
Proof.
  unfold sorted_by_timestamp.
  destruct (with_keys items) as [keyed|] eqn:Hk; [|discriminate].
  intros E. inversion E; subst sorted.
  destruct (with_keys_spec items keyed Hk) as [Hm Hok].
  rewrite <- Hm, !filter_has_key, filter_sort_desc; [reflexivity | exact Hok |].
  now rewrite (sort_desc_perm keyed).
Qed.

Section ListingFacts.

Variable json_loads : string -> option value.

Local Abbreviation matches := (identity_matches json_loads).
Local Abbreviation listing := (list_transactions json_loads).

Lemma filter_items_eq (x_user : string) (limit : Z) (items : list dict) :
  x_user <> "" ->
  filter_items json_loads (Some x_user) limit items =
  Py.slice_to limit (List.filter (matches x_user) items).
Proof.
  intros Hx. unfold filter_items, Py.str_truthy.
  apply String.eqb_neq in Hx. rewrite Hx. cbn [negb].
  now rewrite filter_loop.
Qed.

Lemma list_transactions_memory cfg scan limit x_user st :
  durable_enabled cfg = false ->
  listing cfg scan limit x_user st =
  (Return (filter_items json_loads x_user limit
             (Py.slice_to limit (transactions_store st))), st).
Proof.
  intros Hm. unfold list_transactions, scan_items, mbind, handler_bind.
  now rewrite Hm.
Qed.

(** X15. For every limit, negative ones included, and every non-empty
    X-User filter, what [list_transactions] returns is the beginning of the
    matching scanned records: every returned item was scanned and matches
    the filter, and the items keep the order of the scan. *)
Theorem listing_returns_only_matching_records
    cfg scan limit (x_user : string) st items st' :
  x_user <> "" ->
  listing cfg scan limit (Some x_user) st = (Return items, st') ->
  exists scanned dropped,
    scan_items cfg scan limit st = (Return scanned, st') /\
    List.filter (matches x_user) scanned = (items ++ dropped)%list /\
    forall it, In it items -> In it scanned /\ matches x_user it = true.
Proof.
  intros Hx. unfold list_transactions, mbind, handler_bind, mret, handler_ret.
  destruct (scan_items cfg scan limit st) as [[scanned|c d|] st1];
    try discriminate.
  rewrite filter_items_eq by exact Hx. intros E. inversion E; subst.
  destruct (slice_to_prefix limit (List.filter (matches x_user) scanned))
    as [dropped Hd].
  exists scanned, dropped. split; [reflexivity|]. split; [exact Hd|].
  intros it Hin. apply filter_In. rewrite Hd. apply in_or_app. now left.
Qed.

(** X16. On the memory backend a negative limit [-k] does not raise: without
    a filter the store is returned without its [k] oldest records, and with
    a filter the matching ones among those, again without the last [k];
    the limit 0 returns nothing. *)
Theorem non_positive_limit_on_memory_store
    cfg scan limit (x_user : string) st :
  durable_enabled cfg = false -> x_user <> "" ->
  (limit < 0 ->
     let k := Z.to_nat (- limit) in
     let scanned :=
       take (length (transactions_store st) - k) (transactions_store st) in
     let kept := List.filter (matches x_user) scanned in
     listing cfg scan limit None st = (Return scanned, st) /\
     listing cfg scan limit (Some x_user) st
     = (Return (take (length kept - k) kept), st)) /\
  (limit = 0 ->
     listing cfg scan limit None st = (Return [], st) /\
     listing cfg scan limit (Some x_user) st = (Return [], st)).
Proof.
  intros Hm Hx. split.
  - intros Hneg. cbv zeta. rewrite !list_transactions_memory by exact Hm.
    rewrite filter_items_eq by exact Hx. cbn [filter_items].
    now rewrite !slice_to_negative by exact Hneg.
  - intros ->. rewrite !list_transactions_memory by exact Hm.
    rewrite filter_items_eq by exact Hx. split; reflexivity.
Qed.

(** X17. With the durable backend and a successful read, the listing
    raises exactly when the timestamp of some retrieved item cannot be
    converted by [int()]; there is no fallback to the in-memory store in
    that case.  An item without a timestamp counts as timestamp 0. *)
Theorem durable_listing_needs_integer_timestamps
    cfg (retrieved : list dict) limit x_user st :
  durable_enabled cfg = true ->
  (fst (listing cfg (DynamoOk retrieved) limit x_user st) = Uncaught <->
   exists x, In x retrieved /\ timestamp_key x = None) /\
  (forall x, dict_get "timestamp" x = None -> timestamp_key x = Some 0).
Proof.
  intros Hd. split.
  - rewrite <- with_keys_none.
    unfold list_transactions, scan_items, sorted_by_timestamp, mbind,
           handler_bind.
    rewrite Hd. destruct (with_keys retrieved); cbn; split; congruence.
  - intros x Hx. unfold timestamp_key, py_get_default. now rewrite Hx.
Qed.

(** X18. A filter that is not a JSON text matches by equality only: every
    record the listing returns has exactly the filter string as identity,
    whatever the limit. *)
Theorem plain_filter_returns_own_records
    cfg scan limit (x_user : string) st items st' :
  x_user <> "" -> json_loads x_user = None ->
  listing cfg scan limit (Some x_user) st = (Return items, st') ->
  forall it, In it items -> dict_get "user" it = Some (VStr x_user).
Proof.
  intros Hx Hj. unfold list_transactions, mbind, handler_bind, mret, handler_ret.
  destruct (scan_items cfg scan limit st) as [[scanned|c d|] st1];
    try discriminate.
  rewrite filter_items_eq by exact Hx. intros E. inversion E; subst.
  intros it Hin.
  destruct (slice_to_prefix limit (List.filter (matches x_user) scanned))
    as [dropped Hd].
  assert (Hf : In it (List.filter (matches x_user) scanned))
    by (rewrite Hd; apply in_or_app; now left).
  apply filter_In in Hf as [_ Hmatch].
  unfold identity_matches, py_get, extract_email in Hmatch.
  rewrite Hj in Hmatch. cbn [Py.truthy andb] in Hmatch.
  destruct (dict_get "user" it) as [[| | | |u| |]|]; try discriminate.
  rewrite orb_false_r in Hmatch.
  apply andb_true_iff in Hmatch as [_ Hu]. apply String.eqb_eq in Hu.
  now subst.
Qed.

(** X19. After a successful [DELETE /transactions] the in-memory store is
    empty and the items written to the table are untouched; a listing that
    reads the in-memory store (memory backend, or a failed read of the
    table) then returns nothing, for every limit and filter. *)
Theorem cleared_store_lists_nothing cfg st st' scan limit x_user :
  clear_transactions cfg st = (Return tt, st') ->
  transactions_store st' = [] /\
  dynamo_items st' = dynamo_items st /\
  (durable_enabled cfg = false \/ scan = DynamoBotoError ->
   listing cfg scan limit x_user st' = (Return [], st')).
Proof.
  unfold clear_transactions. destruct (_ && _); [discriminate|].
  intros E. inversion E; subst. cbn [transactions_store dynamo_items].
  split; [reflexivity|]. split; [reflexivity|].
  intros Hread.
  assert (Hscan : scan_items cfg scan limit
                    {| transactions_store := []; dynamo_items := dynamo_items st |}
                  = (Return [], {| transactions_store := [];
                                   dynamo_items := dynamo_items st |})).
  { unfold scan_items. cbn [transactions_store]. rewrite slice_to_nil.
    destruct Hread as [-> | ->]; [reflexivity|].
    now destruct (durable_enabled cfg). }
  unfold list_transactions, mbind, handler_bind, mret, handler_ret.
  rewrite Hscan. unfold filter_items.
  destruct x_user as [xu|]; [|reflexivity].
  destruct (Py.str_truthy xu); [|reflexivity].
  cbn [fold_left]. now rewrite slice_to_nil.
Qed.

End ListingFacts.

(** ** From creation to listing *)

Lemma store_insert_cons (record : dict) (store : list dict) :
  exists older, store_insert record store = record :: older.
Proof.
  pose proof (store_insert_head record store) as H.
  destruct (store_insert record store) as [|r older]; [discriminate|].
  inversion H. eauto.
Qed.

Section RoundTrip.

Variable json_loads : string -> option value.
Variable json_dumps : value -> option string.
Variable verify_oauth2_token : string -> option string -> option value.

Local Abbreviation create := (create_transaction json_dumps verify_oauth2_token).
Local Abbreviation listing := (list_transactions json_loads).
Local Abbreviation matches := (identity_matches json_loads).

(** A created record at the head of the in-memory store is listed first
    under every filter it matches. *)
Lemma listed_first cfg scan limit (x_user : string) record older st :
  durable_enabled cfg = false -> 1 <= limit -> x_user <> "" ->
  transactions_store st = record :: older ->
  matches x_user record = true ->
  exists rest,
    listing cfg scan limit (Some x_user) st = (Return (record :: rest), st).
Proof.
  intros Hm Hl Hx Hs Hmatch.
  rewrite (list_transactions_memory json_loads) by exact Hm.
  rewrite filter_items_eq by exact Hx.
  rewrite Hs, slice_to_cons by exact Hl.
  cbn [List.filter]. rewrite Hmatch, slice_to_cons by exact Hl. eauto.
Qed.

Lemma created_on_memory cfg w t x_user authorization st record st' :
  durable_enabled cfg = false ->
  create cfg w t x_user authorization st = (Return record, st') ->
  exists user older,
    dict_get "user" record = Some (VStr user) /\ user <> "" /\
    resolve_identity json_dumps verify_oauth2_token cfg x_user authorization st
    = (Return user, st) /\
    transactions_store st' = record :: older.
Proof.
  intros Hm Hc.
  apply create_transaction_inv in Hc as (user & Hid & _ & -> & ->).
  pose proof Hid as Hid'.
  apply (resolve_identity_inv json_dumps verify_oauth2_token) in Hid'
    as (Hne & _).
  rewrite save_transaction_record_cases.
  unfold save_raises, written_durably. rewrite Hm. cbn [andb snd transactions_store].
  destruct (store_insert_cons
              (build_record w user (classify cfg (risk_reply w) t))
              (transactions_store st)) as [older ->].
  exists user, older. repeat split; auto.
Qed.

(** X20. On the memory backend, a record [create_transaction] has just
    returned is the first item of the next listing with a limit of at least
    1, both without a filter and with the record's own identity as
    filter. *)
Theorem created_record_is_listed
    cfg w t x_user authorization st record st' scan limit :
  durable_enabled cfg = false -> 1 <= limit ->
  create cfg w t x_user authorization st = (Return record, st') ->
  (exists rest,
     listing cfg scan limit None st' = (Return (record :: rest), st')) /\
  (exists user rest,
     dict_get "user" record = Some (VStr user) /\
     listing cfg scan limit (Some user) st' = (Return (record :: rest), st')).
Proof.
  intros Hm Hl Hc.
  destruct (created_on_memory cfg w t x_user authorization st record st' Hm Hc)
    as (user & older & Hu & Hne & _ & Hs).
  split.
  - rewrite (list_transactions_memory json_loads) by exact Hm.
    cbn [filter_items]. rewrite Hs, slice_to_cons by exact Hl. eauto.
  - destruct (listed_first cfg scan limit user record older st' Hm Hl Hne Hs)
      as [rest Hlist].
    + unfold identity_matches, py_get. rewrite Hu.
      apply String.eqb_neq in Hne. now rewrite Hne, String.eqb_refl.
    + eauto.
Qed.

(** X21. Provided [json.loads] reads back what [json.dumps] wrote: on the
    memory backend, a record created with a Google token whose email claim
    is not empty is the first item of the next listing (limit at least 1)
    under any X-User filter that is a JSON object with an equal email. *)
Theorem token_record_is_found_by_email
    cfg w t x_user token st record st' scan limit payload
    (filter : string) (j : dict) :
  (forall v s, json_dumps v = Some s -> json_loads s = Some v) ->
  durable_enabled cfg = false -> 1 <= limit ->
  create cfg w t x_user (Some ("Bearer " +:+ token)) st = (Return record, st') ->
  verify_oauth2_token token (expected_audience cfg) = Some (VDict payload) ->
  json_loads filter = Some (VDict j) ->
  Py.truthy (py_get "email" j) = true ->
  Py.truthy (py_get "email" payload) = true ->
  Py.eq (py_get "email" j) (py_get "email" payload) = true ->
  exists rest,
    listing cfg scan limit (Some filter) st' = (Return (record :: rest), st').
Proof.
  intros Hround Hm Hl Hc Hv Hj Htj Htp Heq.
  destruct (created_on_memory cfg w t x_user _ st record st' Hm Hc)
    as (user & older & Hu & Hne & Hid & Hs).
  apply (resolve_identity_inv json_dumps verify_oauth2_token) in Hid
    as (_ & _ & Htok).
  specialize (Htok token eq_refl). unfold token_identity in Htok.
  rewrite Hv in Htok. apply Hround in Htok.
  destruct (String.eqb_spec filter "") as [-> | Hf].
  { rewrite (list_transactions_memory json_loads) by exact Hm.
    cbn [filter_items Py.str_truthy String.eqb negb].
    rewrite Hs, slice_to_cons by exact Hl. eauto. }
  apply (listed_first cfg scan limit filter record older st' Hm Hl Hf Hs).
  unfold identity_matches, py_get, extract_email. rewrite Hu, Hj, Htok.
  apply String.eqb_neq in Hne. rewrite Hne. cbn [negb andb].
  change (py_get "email" [("name", py_get "name" payload);
                          ("email", py_get "email" payload)])
    with (py_get "email" payload).
  rewrite Htj, Htp, Heq. now rewrite orb_true_r.
Qed.

End RoundTrip.

(** ** The further properties on sample inputs *)

(** A write that raises [TypeError]: the request is not caught. *)
Lemma create_outcome_sample :
  fst (create_transaction Sample.dumps Sample.verify Sample.cfg_durable
         (Sample.world RiskUnreachable DynamoOtherError) (Sample.transaction 50)
         (Some "alice") None initial_state)
  = Uncaught.
Proof.
  pose proof (create_transaction_outcomes Sample.dumps Sample.verify
                Sample.cfg_durable
                (Sample.world RiskUnreachable DynamoOtherError)
                (Sample.transaction 50) (Some "alice") None initial_state) as H.
  cbv zeta in H. apply (proj2 H). split.
  - exists "alice". vm_compute. reflexivity.
  - vm_compute. reflexivity.
Defined.

(** Two items with the timestamp 9 among four: the sorted list has them
    first, in the order of the retrieved list. *)
Lemma sort_stability_sample :
  List.filter (has_key 9)
    [ Sample.record_of "b" "bob" 9; Sample.record_of "d" "bob" 9;
      Sample.record_of "c" "alice" 7; Sample.record_of "a" "alice" 5 ]
  = List.filter (has_key 9)
      [ Sample.record_of "a" "alice" 5; Sample.record_of "b" "bob" 9;
        Sample.record_of "c" "alice" 7; Sample.record_of "d" "bob" 9 ].
Proof.
  exact (sort_keeps_order_of_equal_timestamps
           [ Sample.record_of "a" "alice" 5; Sample.record_of "b" "bob" 9;
             Sample.record_of "c" "alice" 7; Sample.record_of "d" "bob" 9 ]
           [ Sample.record_of "b" "bob" 9; Sample.record_of "d" "bob" 9;
             Sample.record_of "c" "alice" 7; Sample.record_of "a" "alice" 5 ]
           9 eq_refl).
Defined.

(** The listing for [alice] with limit [-1] over three of her records. *)
Lemma listing_soundness_sample :
  let st := Sample.store_of [ Sample.record_of "t3" "alice" 3;
                              Sample.record_of "t2" "alice" 2;
                              Sample.record_of "t1" "alice" 1 ] in
  exists scanned dropped,
    scan_items Sample.cfg_memory DynamoBotoError (-1) st = (Return scanned, st) /\
    List.filter (identity_matches Sample.loads "alice") scanned
    = ([Sample.record_of "t3" "alice" 3] ++ dropped)%list /\
    forall it, In it [Sample.record_of "t3" "alice" 3] ->
               In it scanned /\ identity_matches Sample.loads "alice" it = true.
Proof.
  exact (listing_returns_only_matching_records Sample.loads Sample.cfg_memory
           DynamoBotoError (-1) "alice" _ _ _ ltac:(discriminate) eq_refl).
Defined.

(** The same store listed with the limits [-1] and [0]. *)
Lemma non_positive_limit_sample :
  let st := Sample.store_of [ Sample.record_of "t3" "alice" 3;
                              Sample.record_of "t2" "bob" 2;
                              Sample.record_of "t1" "alice" 1 ] in
  list_transactions Sample.loads Sample.cfg_memory DynamoBotoError (-1) None st
  = (Return [ Sample.record_of "t3" "alice" 3; Sample.record_of "t2" "bob" 2 ], st) /\
  list_transactions Sample.loads Sample.cfg_memory DynamoBotoError 0
    (Some "alice") st = (Return [], st).
Proof.
  cbv zeta. split.
  - destruct (non_positive_limit_on_memory_store Sample.loads Sample.cfg_memory
                DynamoBotoError (-1) "alice"
                (Sample.store_of [ Sample.record_of "t3" "alice" 3;
                                   Sample.record_of "t2" "bob" 2;
                                   Sample.record_of "t1" "alice" 1 ]))
      as [Hneg _]; [vm_compute; reflexivity | discriminate |].
    destruct Hneg as [H _]; [lia|]. rewrite H. vm_compute. reflexivity.
  - destruct (non_positive_limit_on_memory_store Sample.loads Sample.cfg_memory
                DynamoBotoError 0 "alice"
                (Sample.store_of [ Sample.record_of "t3" "alice" 3;
                                   Sample.record_of "t2" "bob" 2;
                                   Sample.record_of "t1" "alice" 1 ]))
      as [_ Hzero]; [vm_compute; reflexivity | discriminate |].
    now destruct Hzero as [_ H].
Defined.

(** An item of the table whose timestamp is the text [n/a]. *)
Lemma durable_listing_sample :
  fst (list_transactions Sample.loads Sample.cfg_durable
         (DynamoOk [ Sample.record_of "a" "alice" 5;
                     [ ("id", VStr "b"); ("timestamp", VStr "n/a") ] ])
         20 None initial_state)
  = Uncaught.
Proof.
  apply (durable_listing_needs_integer_timestamps Sample.loads
           Sample.cfg_durable).
  - vm_compute. reflexivity.
  - exists [ ("id", VStr "b"); ("timestamp", VStr "n/a") ].
    split; [simpl; auto | vm_compute; reflexivity].
Defined.

(** The listing for the plain identity [alice]. *)
Lemma plain_filter_sample :
  dict_get "user" (Sample.record_of "t3" "alice" 3) = Some (VStr "alice").
Proof.
  apply (plain_filter_returns_own_records Sample.loads Sample.cfg_memory
           DynamoBotoError 20 "alice"
           (Sample.store_of [ Sample.record_of "t3" "alice" 3;
                              Sample.record_of "t2" "bob" 2;
                              Sample.record_of "t1" Sample.alice_json 1 ])
           [Sample.record_of "t3" "alice" 3] _
           ltac:(discriminate) eq_refl eq_refl).
  simpl. auto.
Defined.

(** Clearing a store of one record, then listing. *)
Lemma cleared_store_sample :
  list_transactions Sample.loads Sample.cfg_memory DynamoBotoError 20
    (Some "alice") initial_state = (Return [], initial_state).
Proof.
  apply (cleared_store_lists_nothing Sample.loads Sample.cfg_memory
           (Sample.store_of [Sample.record_of "tx" "alice" 1]) initial_state
           DynamoBotoError 20 (Some "alice") eq_refl).
  left. vm_compute. reflexivity.
Defined.

(** A record created for [alice], then listed. *)
Lemma created_record_listed_sample :
  exists user rest,
    dict_get "user" Demo.alice_record = Some (VStr user) /\
    list_transactions Sample.loads Demo.cfg_5000 DynamoBotoError 20 (Some user)
      (Sample.store_of [Demo.alice_record])
    = (Return (Demo.alice_record :: rest), Sample.store_of [Demo.alice_record]).
Proof.
  apply (created_record_is_listed Sample.loads Sample.dumps Sample.verify
           Demo.cfg_5000 (Sample.world RiskUnreachable DynamoBotoError)
           (Sample.transaction 6000) (Some "alice") None initial_state
           Demo.alice_record (Sample.store_of [Demo.alice_record])
           DynamoBotoError 20).
  - vm_compute. reflexivity.
  - lia.
  - vm_compute. reflexivity.
Defined.

Lemma sample_round_trip (v : value) (s : string) :
  Sample.dumps v = Some s -> Sample.loads s = Some v.
Proof.
  unfold Sample.dumps.
  destruct v as [| | | | | |d]; try discriminate.
  destruct d as [|[k1 v1] d]; try discriminate.
  destruct v1 as [| | | |n| |]; try discriminate.
  destruct d as [|[k2 v2] d]; try discriminate.
  destruct v2 as [| | | |e| |]; try discriminate.
  destruct d; try discriminate.
  destruct (_ && _) eqn:E; [|discriminate].
  repeat (apply andb_true_iff in E as [E ?]).
  repeat match goal with
         | H : String.eqb _ _ = true |- _ => apply String.eqb_eq in H
         end.
  subst. intros E'. inversion E'. vm_compute. reflexivity.
Qed.

(** A record created with the token of Alice, listed under her email. *)
Lemma token_record_sample :
  let record :=
    [ ("id", VStr "7f1c"); ("timestamp", VInt 1700000000);
      ("user", VStr Sample.alice_json);
      ("amount", VFloat (FFin (inject_Z 50)));
      ("currency", VStr "USD"); ("merchant", VStr "ACME");
      ("risk_level", VStr "LOW"); ("high_risk", VBool false) ] in
  exists rest,
    list_transactions Sample.loads Sample.cfg_memory DynamoBotoError 20
      (Some Sample.alice_email_json) (Sample.store_of [record])
    = (Return (record :: rest), Sample.store_of [record]).
Proof.
  cbv zeta.
  apply (token_record_is_found_by_email Sample.loads Sample.dumps Sample.verify
           Sample.cfg_memory (Sample.world RiskUnreachable DynamoBotoError)
           (Sample.transaction 50) None "alice-token" initial_state _ _
           DynamoBotoError 20
           (("iss", VStr "https://accounts.google.com") :: Sample.alice_claims)
           Sample.alice_email_json [("email", VStr "alice@example.com")]).
  - exact sample_round_trip.
  - vm_compute. reflexivity.
  - lia.
  - vm_compute. reflexivity.
  - vm_compute. reflexivity.
  - vm_compute. reflexivity.
  - vm_compute. reflexivity.
  - vm_compute. reflexivity.
  - vm_compute. reflexivity.
Defined.

(** ** Empty inputs *)

Section EmptyInputs.

Variable json_loads : string -> option value.
Variable json_dumps : value -> option string.
Variable verify_oauth2_token : string -> option string -> option value.

Local Abbreviation create := (create_transaction json_dumps verify_oauth2_token).
Local Abbreviation listing := (list_transactions json_loads).

(** X22. An empty X-User header counts as no header in both handlers:
    [create_transaction] ends as without it, and [list_transactions] does
    not filter, so that it returns the scanned records of every identity. *)
Theorem empty_x_user_is_no_header
    cfg w t authorization scan limit st :
  create cfg w t (Some "") authorization st =
  create cfg w t None authorization st /\
  listing cfg scan limit (Some "") st = listing cfg scan limit None st /\
  listing cfg scan limit (Some "") st = scan_items cfg scan limit st.
Proof.
  split; [|split].
  - unfold create_transaction, resolve_identity, user_header_of.
    now destruct (is_bearer authorization).
  - reflexivity.
  - exact (list_transactions_no_filter json_loads cfg scan limit st).
Qed.

End EmptyInputs.
